(** * Audio feature: schema selection, decode dispatch and batch aggregation

    A shallow embedding of [src/datasets/features/audio.py].

    The [Audio] dataclass orchestrates three external libraries (librosa,
    soundfile, torchaudio) and a few numpy methods.  None of them belongs to
    the repository, so they enter the model through an environment record
    [Env]; everything the dataclass itself does (branching on [archived],
    suffix test, import guards, the lazily created [_resampler] attribute,
    the order of the post-processing steps, the column-wise regrouping of
    [decode_batch]) is written out below, method by method.

    Python effects are modelled by a state-and-exception monad.  The state
    holds the [Audio] instance (it is mutated: [self._resampler]) and a log
    of the calls made into the external libraries. *)

From stdpp Require Import base option list strings gmap.
From Stdlib Require Import ZArith Lia.

Set Warnings "-register-all".
Local Open Scope Z_scope.

(** ** Python values and exceptions *)

(** An exception is represented by the name of its class, the names of
    the classes that class derives from, and its message (the [__cause__]
    set by [raise ... from err] is not represented).  The libraries may
    raise exceptions of classes of their own: the bases come with the
    exception. *)
Record exception := Exception {
  exc_class : string;
  exc_bases : list string;
  exc_msg : string
}.

(** The bases of the built-in classes used below; any other name stands
    for a class that derives from [Exception] directly. *)
Definition builtin_bases (cls : string) : list string :=
  if String.eqb cls "BaseException" then []
  else if String.eqb cls "Exception" then ["BaseException"]
  else if String.eqb cls "ModuleNotFoundError"
  then ["ImportError"; "Exception"; "BaseException"]
  else if String.eqb cls "NotImplementedError" || String.eqb cls "RecursionError"
  then ["RuntimeError"; "Exception"; "BaseException"]
  else if String.eqb cls "FileNotFoundError"
  then ["OSError"; "Exception"; "BaseException"]
  else ["Exception"; "BaseException"].

(** [cls(msg)] for such a class. *)
Definition Exc (cls msg : string) : exception :=
  {| exc_class := cls; exc_bases := builtin_bases cls; exc_msg := msg |}.

(** [except C] catches the instances of [C] and of every subclass of [C]:
    a class is a subclass of [base] when [base] is the class itself or one
    of the classes it derives from. *)
Definition issubclass (cls : string) (bases : list string) (base : string)
  : bool :=
  String.eqb cls base || existsb (String.eqb base) bases.

Definition isinstance (e : exception) (base : string) : bool :=
  issubclass (exc_class e) (exc_bases e) base.

Inductive result (A : Type) : Type :=
| Ok (a : A)
| Raise (e : exception).
Arguments Ok {A} a.
Arguments Raise {A} e.

(** [str.endswith]: comparison of the last [len(suffix)] characters,
    character by character (hence case-sensitive). *)
Fixpoint string_drop (n : nat) (s : string) : string :=
  match n, s with
  | O, _ => s
  | S n', String _ s' => string_drop n' s'
  | S _, EmptyString => EmptyString
  end.

Definition endswith (s suffix : string) : bool :=
  (String.length suffix <=? String.length s)%nat
  && String.eqb (string_drop (String.length s - String.length suffix) s) suffix.

(** The stored reference handed to [decode_example]: an absolute path (a
    [str]) or a dict with the keys ["path"] and ["bytes"]. *)
Inductive value : Type :=
| VStr (path : string)
| VDict (path : string) (bytes : list Byte.byte).

(** What [torchaudio.load] is given: a path, or the [BytesIO] wrapping the
    bytes of an archived file. *)
Inductive source : Type :=
| FromPath (path : string)
| FromBuffer (file : list Byte.byte).

(** ** pyarrow types used by the schema *)
Inductive pa_type : Type :=
| pa_string
| pa_binary
| pa_struct (fields : list (string * pa_type)).

(** ** The dataclass *)

(** A [torchaudio.transforms.Resample] object remembers the two rates it was
    constructed with. *)
Record Resample := { orig_freq : Z; new_freq : Z }.

(** The declared fields, and the attribute [_resampler] that
    [_decode_example_with_torchaudio] adds to the instance on first use
    ([None] models [not hasattr(self, "_resampler")]). *)
Record Audio := {
  sampling_rate : option Z;
  mono : bool;
  archived : bool;
  id : option string;
  _resampler : option Resample
}.

Definition set_resampler (self : Audio) (r : Resample) : Audio :=
  {| sampling_rate := sampling_rate self; mono := mono self;
     archived := archived self; id := id self; _resampler := Some r |}.

(** [Audio.__call__] *)
Definition __call__ (self : Audio) : pa_type :=
  if negb (archived self) then pa_string
  else pa_struct [("path", pa_string); ("bytes", pa_binary)].

(** The messages of the [ImportError]s raised by the import guards. *)
Definition msg_librosa : string :=
  "To support decoding audio files, please install 'librosa'.".
Definition msg_torchaudio : string :=
  "To support decoding 'mp3' audio files, please install 'torchaudio'.".
Definition msg_sox : string :=
  "To support decoding 'mp3' audio files, please install 'sox'.".

Section Decode.

(** Arrays ([numpy.ndarray]) and tensors ([torch.Tensor]) are opaque to
    the dataclass. *)
Context {ndarray tensor : Type}.

(** *** The external libraries *)

Record LibrosaModule := {
  librosa_load : list Byte.byte -> option Z -> bool -> result (ndarray * Z);
  librosa_to_mono : ndarray -> result ndarray;
  librosa_resample : ndarray -> Z -> Z -> string -> result ndarray
}.

Record SoundfileModule := {
  sf_read : list Byte.byte -> result (ndarray * Z)
}.

(** [torchaudio] together with [torchaudio.transforms]; [Resample_call r x]
    is [r(x)] for a resampler object [r]. *)
Record TorchaudioModule := {
  set_audio_backend : string -> result unit;
  torchaudio_load : source -> result (tensor * Z);
  Resample_call : Resample -> tensor -> result tensor;
  tensor_numpy : tensor -> ndarray
}.

(** An [import] either yields the module or raises; [open(path, "rb")]
    yields the content of the file or raises; [.T] and [.mean(axis=0)] are
    numpy methods. *)
Record Env := {
  import_librosa : result LibrosaModule;
  import_soundfile : result SoundfileModule;
  import_torchaudio : result TorchaudioModule;
  open_rb : string -> result (list Byte.byte);
  ndarray_T : ndarray -> ndarray;
  ndarray_mean_axis0 : ndarray -> ndarray
}.

(** *** Calls into the libraries, as logged *)
Inductive event : Type :=
| EvOpen (path : string)
| EvLibrosaLoad (f : list Byte.byte) (sr : option Z) (mono : bool)
| EvSfRead (file : list Byte.byte)
| EvToMono (a : ndarray)
| EvLibrosaResample (a : ndarray) (orig target : Z) (res_type : string)
| EvSetAudioBackend (name : string)
| EvTorchaudioLoad (src : source)
| EvResampleNew (orig target : Z)
| EvResampleCall (r : Resample) (x : tensor)
| EvMean (a : ndarray).

(** Values stored in the decoded dict. *)
Inductive pyobj : Type :=
| PyStr (s : string)
| PyArray (a : ndarray)
| PyInt (n : Z).

(** *** The monad *)
Record world := { self_ : Audio; trace : list event }.

Definition M (A : Type) : Type := world -> result A * world.

Definition ret {A} (a : A) : M A := fun w => (Ok a, w).
Definition raise {A} (e : exception) : M A := fun w => (Raise e, w).
Definition bind {A B} (m : M A) (k : A -> M B) : M B :=
  fun w => match m w with
           | (Ok a, w') => k a w'
           | (Raise e, w') => (Raise e, w')
           end.

Definition get_self : M Audio := fun w => (Ok (self_ w), w).
Definition put_self (a : Audio) : M unit :=
  fun w => (Ok tt, {| self_ := a; trace := trace w |}).
Definition log (ev : event) : M unit :=
  fun w => (Ok tt, {| self_ := self_ w; trace := trace w ++ [ev] |}).
Definition lift {A} (r : result A) : M A := fun w => (r, w).

(** A call into a library: logged, then its outcome. *)
Definition call {A} (ev : event) (r : result A) : M A :=
  bind (log ev) (fun _ => lift r).

(** [try: import ... except ImportError as err: raise ImportError(msg)] *)
Definition try_import {Mod} (imp : result Mod) (msg : string) : M Mod :=
  match imp with
  | Ok m => ret m
  | Raise e =>
      if isinstance e "ImportError" then raise (Exc "ImportError" msg)
      else raise e
  end.

End Decode.

Arguments LibrosaModule : clear implicits.
Arguments SoundfileModule : clear implicits.
Arguments TorchaudioModule : clear implicits.
Arguments Env : clear implicits.
Arguments event : clear implicits.
Arguments pyobj : clear implicits.
Arguments world : clear implicits.
Arguments M : clear implicits.

Notation "'let*' x ':=' m 'in' k" := (bind m (fun x => k))
  (at level 10, x pattern, m at level 100, k at level 200).

Section Methods.

Context {ndarray tensor : Type}.
Variable E : Env ndarray tensor.

Abbreviation M := (M ndarray tensor).

(** [Audio._decode_example_with_librosa] *)
Definition _decode_example_with_librosa (value : string) : M (ndarray * Z) :=
  let* librosa := try_import (import_librosa E) msg_librosa in
  let* f := call (EvOpen value) (open_rb E value) in
  let* self := get_self in
  let* (array, sampling_rate) :=
    call (EvLibrosaLoad f (sampling_rate self) (mono self))
         (librosa_load librosa f (sampling_rate self) (mono self)) in
  ret (array, sampling_rate).

(** [self.sampling_rate and self.sampling_rate != sampling_rate]: [None]
    and [0] are both falsy. *)
Definition resample_wanted (self : Audio) (native : Z) : option Z :=
  match sampling_rate self with
  | Some target =>
      if negb (target =? 0) && negb (target =? native) then Some target
      else None
  | None => None
  end.

(** [Audio._decode_example_with_soundfile] *)
Definition _decode_example_with_soundfile (file : list Byte.byte)
  : M (ndarray * Z) :=
  let* librosa := try_import (import_librosa E) msg_librosa in
  let* sf := try_import (import_soundfile E) msg_librosa in
  let* (array, sampling_rate) := call (EvSfRead file) (sf_read sf file) in
  let array := ndarray_T E array in
  let* self := get_self in
  let* array :=
    if mono self
    then call (EvToMono array) (librosa_to_mono librosa array)
    else ret array in
  match resample_wanted self sampling_rate with
  | Some target =>
      let* array :=
        call (EvLibrosaResample array sampling_rate target "kaiser_best")
             (librosa_resample librosa array sampling_rate target
                               "kaiser_best") in
      ret (array, target)
  | None => ret (array, sampling_rate)
  end.

(** [try: torchaudio.set_audio_backend("sox_io")
     except RuntimeError as err: raise ImportError(...)] *)
Definition try_set_audio_backend (torchaudio : TorchaudioModule ndarray tensor)
  : M unit :=
  fun w =>
    match call (EvSetAudioBackend "sox_io")
               (set_audio_backend torchaudio "sox_io") w with
    | (Ok u, w') => (Ok u, w')
    | (Raise e, w') =>
        if isinstance e "RuntimeError"
        then (Raise (Exc "ImportError" msg_sox), w')
        else (Raise e, w')
    end.

(** [if not hasattr(self, "_resampler"):
       self._resampler = T.Resample(sampling_rate, self.sampling_rate)]
    followed by the read of [self._resampler]. *)
Definition get_resampler (native target : Z) : M Resample :=
  let* self := get_self in
  match _resampler self with
  | Some r => ret r
  | None =>
      let r := {| orig_freq := native; new_freq := target |} in
      let* _ := log (EvResampleNew native target) in
      let* _ := put_self (set_resampler self r) in
      ret r
  end.

(** [Audio._decode_example_with_torchaudio] *)
Definition _decode_example_with_torchaudio (value : source)
  : M (ndarray * Z) :=
  let* torchaudio := try_import (import_torchaudio E) msg_torchaudio in
  let* _ := try_set_audio_backend torchaudio in
  let* (array, sampling_rate) :=
    call (EvTorchaudioLoad value) (torchaudio_load torchaudio value) in
  let* self := get_self in
  let* (array, sampling_rate) :=
    match resample_wanted self sampling_rate with
    | Some target =>
        let* resampler := get_resampler sampling_rate target in
        let* array :=
          call (EvResampleCall resampler array)
               (Resample_call torchaudio resampler array) in
        ret (array, target)
    | None => ret (array, sampling_rate)
    end in
  let array := tensor_numpy torchaudio array in
  let* array :=
    if mono self
    then call (EvMean array) (Ok (ndarray_mean_axis0 E array))
    else ret array in
  ret (array, sampling_rate).

(** The dict literal returned by [decode_example], in insertion order. *)
Definition decoded (path : string) (r : ndarray * Z)
  : list (string * pyobj ndarray) :=
  [("path", PyStr path); ("array", PyArray (fst r));
   ("sampling_rate", PyInt (snd r))].

(** [Audio.decode_example].  Indexing a [str] with ["path"] raises
    [TypeError]; a dict has no attribute [endswith], so the suffix test
    raises [AttributeError] (the messages are the interpreter's). *)
Definition decode_example (value : value)
  : M (list (string * pyobj ndarray)) :=
  let* self := get_self in
  if archived self then
    match value with
    | VDict path bytes =>
        let file := bytes in
        let* r :=
          if endswith path ".mp3"
          then _decode_example_with_torchaudio (FromBuffer file)
          else _decode_example_with_soundfile file in
        ret (decoded path r)
    | VStr _ =>
        raise (Exc "TypeError" "string indices must be integers")
    end
  else
    match value with
    | VStr path =>
        let* r :=
          if endswith path ".mp3"
          then _decode_example_with_torchaudio (FromPath path)
          else _decode_example_with_librosa path in
        ret (decoded path r)
    | VDict _ _ =>
        raise (Exc "AttributeError"
                   "'dict' object has no attribute 'endswith'")
    end.

(** [decoded_batch[k].append(v)] on a [defaultdict(list)]: a missing key
    is first bound to the empty list. *)
Definition append_to (decoded_batch : gmap string (list (pyobj ndarray)))
    (kv : string * pyobj ndarray) : gmap string (list (pyobj ndarray)) :=
  <[fst kv := default [] (decoded_batch !! fst kv) ++ [snd kv]]> decoded_batch.

(** The loop of [Audio.decode_batch], from a given [decoded_batch]. *)
Fixpoint decode_batch_from (values : list value)
    (decoded_batch : gmap string (list (pyobj ndarray)))
  : M (gmap string (list (pyobj ndarray))) :=
  match values with
  | [] => ret decoded_batch
  | value :: values' =>
      let* decoded_example := decode_example value in
      decode_batch_from values'
        (fold_left append_to decoded_example decoded_batch)
  end.

(** [Audio.decode_batch] *)
Definition decode_batch (values : list value)
  : M (gmap string (list (pyobj ndarray))) :=
  decode_batch_from values ∅.

End Methods.

(** A freshly constructed instance: [Audio(sampling_rate, mono, archived)];
    the attribute [_resampler] does not exist yet. *)
Definition Audio_init (sampling_rate : option Z) (mono archived : bool) : Audio :=
  {| sampling_rate := sampling_rate; mono := mono; archived := archived;
     id := None; _resampler := None |}.

(** The instance with the attribute [_resampler] removed. *)
Definition without_resampler (self : Audio) : Audio :=
  {| sampling_rate := sampling_rate self; mono := mono self;
     archived := archived self; id := id self; _resampler := None |}.

(** The method of [Audio] in which each library call is made. *)
Inductive method : Type :=
| with_librosa
| with_soundfile
| with_torchaudio.

Definition event_method {ndarray tensor} (ev : event ndarray tensor) : method :=
  match ev with
  | EvOpen _ | EvLibrosaLoad _ _ _ => with_librosa
  | EvSfRead _ | EvToMono _ | EvLibrosaResample _ _ _ _ => with_soundfile
  | EvSetAudioBackend _ | EvTorchaudioLoad _ | EvResampleNew _ _
  | EvResampleCall _ _ | EvMean _ => with_torchaudio
  end.

Definition is_resample_event {ndarray tensor} (ev : event ndarray tensor) : bool :=
  match ev with
  | EvLibrosaResample _ _ _ _ | EvResampleNew _ _ | EvResampleCall _ _ => true
  | _ => false
  end.

(** ** A concrete environment

    Integer samples, a two-channel PCM container whose first byte is the
    rate, a nearest-neighbour resampler and the channel average.  It is used
    to run the methods on concrete files. *)
Module Demo.

Inductive nd : Type :=
| A1 (xs : list Z)
| A2 (rows : list (list Z)).

Definition bytes_of (l : list Z) : list Byte.byte :=
  omap (fun z => Byte.of_N (Z.to_N z)) l.

Definition Z_of_byte (b : Byte.byte) : Z := Z.of_N (Byte.to_N b).

Fixpoint frames (l : list Z) : list (list Z) :=
  match l with
  | a :: b :: t => [a; b] :: frames t
  | _ => []
  end.

Fixpoint transpose (rows : list (list Z)) : list (list Z) :=
  match rows with
  | [] => []
  | r :: rs =>
      match rs with
      | [] => map (fun x => [x]) r
      | _ => zip_with cons r (transpose rs)
      end
  end.

(** channel-last frames and the rate *)
Definition pcm_decode (file : list Byte.byte) : result (list (list Z) * Z) :=
  match map Z_of_byte file with
  | rate :: samples =>
      if 0 <? rate then Ok (frames samples, rate)
      else Raise (Exc "RuntimeError" "bad header")
  | [] => Raise (Exc "RuntimeError" "empty file")
  end.

Definition average (col : list Z) : Z :=
  foldr Z.add 0 col / Z.of_nat (length col).

Definition mean_axis0 (a : nd) : nd :=
  match a with
  | A1 xs => A1 [average xs]
  | A2 rows => A1 (map average (transpose rows))
  end.

Definition T (a : nd) : nd :=
  match a with
  | A1 xs => A1 xs
  | A2 rows => A2 (transpose rows)
  end.

Definition resample_row (orig target : Z) (xs : list Z) : list Z :=
  map (fun i => nth (Z.to_nat (i * orig / target)) xs 0)
      (seqZ 0 (Z.of_nat (length xs) * target / orig)).

Definition resample_nd (orig target : Z) (a : nd) : nd :=
  match a with
  | A1 xs => A1 (resample_row orig target xs)
  | A2 rows => A2 (map (resample_row orig target) rows)
  end.

Definition stereo4 : list Byte.byte :=
  bytes_of [4; 0; 100; 10; 110; 20; 120; 30; 130].
Definition stereo8 : list Byte.byte :=
  bytes_of [8; 0; 100; 10; 110; 20; 120; 30; 130;
               40; 140; 50; 150; 60; 160; 70; 170].

Definition fs_open (path : string) : result (list Byte.byte) :=
  if String.eqb path "/data/a.wav" then Ok stereo4
  else if String.eqb path "/data/a.mp3" then Ok stereo4
  else if String.eqb path "/data/b.mp3" then Ok stereo8
  else Raise (Exc "FileNotFoundError" path).

Definition librosa : LibrosaModule nd := {|
  librosa_load f sr mono :=
    match pcm_decode f with
    | Ok (fr, rate) =>
        let y := A2 (transpose fr) in
        let y := if mono then mean_axis0 y else y in
        match sr with
        | Some target => Ok (resample_nd rate target y, target)
        | None => Ok (y, rate)
        end
    | Raise e => Raise e
    end;
  librosa_to_mono a :=
    Ok (match a with A1 _ => a | A2 _ => mean_axis0 a end);
  librosa_resample a orig target _ := Ok (resample_nd orig target a)
|}.

Definition soundfile : SoundfileModule nd := {|
  sf_read file :=
    match pcm_decode file with
    | Ok (fr, rate) => Ok (A2 fr, rate)
    | Raise e => Raise e
    end
|}.

Definition torchaudio (sox : bool) : TorchaudioModule nd (list (list Z)) := {|
  set_audio_backend _ :=
    if sox then Ok tt else Raise (Exc "RuntimeError" "Backend not available");
  torchaudio_load src :=
    match match src with
          | FromPath p =>
              match fs_open p with
              | Ok f => pcm_decode f
              | Raise e => Raise e
              end
          | FromBuffer f => pcm_decode f
          end with
    | Ok (fr, rate) => Ok (transpose fr, rate)
    | Raise e => Raise e
    end;
  Resample_call r x :=
    Ok (map (resample_row (orig_freq r) (new_freq r)) x);
  tensor_numpy x := A2 x
|}.

Definition not_installed {A} (name : string) : result A :=
  Raise (Exc "ModuleNotFoundError" ("No module named '" +:+ name +:+ "'")).

(** Which of librosa, soundfile, torchaudio and the sox backend are
    installed. *)
Definition env (has_librosa has_soundfile has_torchaudio has_sox : bool)
  : Env nd (list (list Z)) := {|
  import_librosa := if has_librosa then Ok librosa else not_installed "librosa";
  import_soundfile :=
    if has_soundfile then Ok soundfile else not_installed "soundfile";
  import_torchaudio :=
    if has_torchaudio then Ok (torchaudio has_sox)
    else not_installed "torchaudio";
  open_rb := fs_open;
  ndarray_T := T;
  ndarray_mean_axis0 := mean_axis0
|}.

Definition full : Env nd (list (list Z)) := env true true true true.

Definition start (self : Audio) : world nd (list (list Z)) :=
  {| self_ := self; trace := [] |}.

End Demo.

(** ** Vocabulary of the statements *)

(** [d[k]] for a dict given by its items. *)
Definition dict_get {V} (k : string) (d : list (string * V)) : option V :=
  snd <$> List.find (fun kv => String.eqb (fst kv) k) d.

(** The values stored under [k] by a sequence of dicts, in order. *)
Definition column {V} (k : string) (ds : list (list (string * V))) : list V :=
  omap (dict_get k) ds.

(** The column-oriented regrouping of a sequence of decoded dicts. *)
Definition columns {V} (ds : list (list (string * V))) : gmap string (list V) :=
  <["sampling_rate" := column "sampling_rate" ds]>
    (<["array" := column "array" ds]>
       (<["path" := column "path" ds]> ∅)).

(** What [decode_batch] has accumulated after the dicts [ds]: nothing at
    all before the first one, the three columns afterwards. *)
Definition batch_of {V} (ds : list (list (string * V))) : gmap string (list V) :=
  match ds with
  | [] => ∅
  | _ :: _ => columns ds
  end.

(** [decode_example] applied to each reference in turn, on the same
    instance. *)
Fixpoint decode_all {ndarray tensor} (E : Env ndarray tensor)
    (values : list value) : M ndarray tensor (list (list (string * pyobj ndarray))) :=
  match values with
  | [] => ret []
  | value :: values' =>
      let* d := decode_example E value in
      let* ds := decode_all E values' in
      ret (d :: ds)
  end.

(** The rate reported by the decoder for a reference, in the two methods
    that resample by themselves ([sf.read] and [torchaudio.load]). *)
Definition rate_of {A} (r : result (A * Z)) : option Z :=
  match r with
  | Ok (_, rate) => Some rate
  | Raise _ => None
  end.

Definition torchaudio_rate {ndarray tensor} (E : Env ndarray tensor)
    (src : source) : option Z :=
  match import_torchaudio E with
  | Ok torchaudio => rate_of (torchaudio_load torchaudio src)
  | Raise _ => None
  end.

Definition soundfile_rate {ndarray tensor} (E : Env ndarray tensor)
    (file : list Byte.byte) : option Z :=
  match import_soundfile E with
  | Ok sf => rate_of (sf_read sf file)
  | Raise _ => None
  end.

Definition native_rate {ndarray tensor} (E : Env ndarray tensor)
    (self : Audio) (v : value) : option Z :=
  match v with
  | VDict path bytes =>
      if archived self then
        if endswith path ".mp3" then torchaudio_rate E (FromBuffer bytes)
        else soundfile_rate E bytes
      else None
  | VStr path =>
      if archived self then None
      else if endswith path ".mp3" then torchaudio_rate E (FromPath path)
      else None
  end.

(** The same instance with [sampling_rate=None]. *)
Definition keep_native_rate {ndarray tensor} (w : world ndarray tensor)
  : world ndarray tensor :=
  {| self_ := {| sampling_rate := None; mono := mono (self_ w);
                 archived := archived (self_ w); id := id (self_ w);
                 _resampler := _resampler (self_ w) |};
     trace := trace w |}.

Definition is_downmix_event {ndarray tensor} (ev : event ndarray tensor) : bool :=
  match ev with
  | EvToMono _ | EvMean _ => true
  | _ => false
  end.

(** Every downmix logged in [tr] comes after every resampling logged in
    [tr]. *)
Definition downmix_after_resample {ndarray tensor}
    (tr : list (event ndarray tensor)) : Prop :=
  forall i j evd evr,
    tr !! i = Some evd -> is_downmix_event evd = true ->
    tr !! j = Some evr -> is_resample_event evr = true ->
    (j < i)%nat.

(** The method [decode_example] selects for a well-shaped reference. *)
Definition selected (is_archived : bool) (path : string) : method :=
  if endswith path ".mp3" then with_torchaudio
  else if is_archived then with_soundfile else with_librosa.

(** [needle in haystack] for strings. *)
Fixpoint startswith (s prefix : string) : bool :=
  match prefix, s with
  | EmptyString, _ => true
  | String c p', String d s' => Ascii.eqb c d && startswith s' p'
  | String _ _, EmptyString => false
  end.

Fixpoint contains (haystack needle : string) : bool :=
  startswith haystack needle
  || match haystack with
     | EmptyString => false
     | String _ h' => contains h' needle
     end.

(** The run from [w] to [w'] only appended events satisfying [P] to the
    log. *)
Definition appends {ndarray tensor} (P : event ndarray tensor -> Prop)
    (w w' : world ndarray tensor) : Prop :=
  exists evs, trace w' = trace w ++ evs /\ Forall P evs.

(** The path carried by a stored reference. *)
Definition path_of (v : value) : string :=
  match v with
  | VStr path => path
  | VDict path _ => path
  end.

(** The fields [@dataclass] compares and hashes, in declaration order.
    [_resampler] is an attribute, not a field; the field [_type] is not an
    argument of [__init__] and holds ["Audio"] in every instance. *)
Definition fields (self : Audio) : option Z * bool * bool * option string :=
  (sampling_rate self, mono self, archived self, id self).

(** [Audio.__eq__], as generated by [@dataclass]: the tuples of fields are
    compared. *)
Definition __eq__ (self other : Audio) : bool :=
  bool_decide (fields self = fields other).

(** [self'] is [self] after some calls: the same fields, and the resampler
    of [self], if it had one. *)
Definition later_instance (self self' : Audio) : Prop :=
  fields self' = fields self
  /\ forall cached, _resampler self = Some cached ->
                    _resampler self' = Some cached.

(** The resampler of the instance, if it has one, is one towards
    [sampling_rate], from another rate. *)
Definition resampler_consistent (self : Audio) : Prop :=
  forall cached,
    _resampler self = Some cached ->
    sampling_rate self = Some (new_freq cached)
    /\ new_freq cached <> 0
    /\ new_freq cached <> orig_freq cached.

(** ** Tactics for running the monad *)

Ltac run_monad :=
  cbv beta iota delta
    [bind ret raise lift call log get_self put_self try_import] in *.

Ltac atomic t :=
  lazymatch t with
  | context [match _ with Ok _ => _ | Raise _ => _ end] => fail
  | context [match _ with Some _ => _ | None => _ end] => fail
  | context [if _ then _ else _] => fail
  | Ok _ => fail
  | Raise _ => fail
  | Some _ => fail
  | None => fail
  | true => fail
  | false => fail
  | _ => idtac
  end.

Ltac split_hyp H :=
  repeat match type of H with
    | context [match ?r with Ok _ => _ | Raise _ => _ end] =>
        atomic r; let Hr := fresh "Hr" in destruct r as [[? ?]|] eqn:Hr; simpl in H
    | context [match ?r with Ok _ => _ | Raise _ => _ end] =>
        atomic r; let Hr := fresh "Hr" in destruct r eqn:Hr; simpl in H
    | context [match ?o with Some _ => _ | None => _ end] =>
        atomic o; let Ho := fresh "Ho" in destruct o eqn:Ho; simpl in H
    | context [if ?b then _ else _] =>
        atomic b; let Hb := fresh "Hb" in destruct b eqn:Hb; simpl in H
    end.

Ltac close_trace :=
  simpl;
  first
    [ exists []; split; [symmetry; apply app_nil_r | constructor]
    | rewrite <- ?app_assoc; simpl; eexists; split;
      [reflexivity | repeat constructor] ].

Ltac use_eqns :=
  repeat match goal with
    | Hx : ?t = _ |- context [?t] => rewrite Hx; simpl
    end.


Ltac split_goal :=
  repeat match goal with
    | |- context [match ?r with Ok _ => _ | Raise _ => _ end] =>
        atomic r; let Hr := fresh "Hr" in destruct r as [[? ?]|] eqn:Hr; simpl
    | |- context [match ?r with Ok _ => _ | Raise _ => _ end] =>
        atomic r; let Hr := fresh "Hr" in destruct r eqn:Hr; simpl
    | |- context [match ?o with Some _ => _ | None => _ end] =>
        atomic o; let Ho := fresh "Ho" in destruct o eqn:Ho; simpl
    | |- context [if ?b then _ else _] =>
        atomic b; let Hb := fresh "Hb" in destruct b eqn:Hb; simpl
    end.

Ltac use_eqns_in H :=
  repeat match goal with
    | Hx : ?t = _ |- _ =>
        tryif constr_eq Hx H then fail else
        lazymatch type of H with
        | context [t] => rewrite Hx in H; simpl in H
        end
    end.

(** * Theorems *)

(** ** [str.endswith] *)

Lemma string_drop_app (pre suf : string) :
  string_drop (String.length pre) (pre +:+ suf) = suf.
Proof. induction pre as [|c pre IH]; simpl; [reflexivity | exact IH]. Qed.

Lemma string_length_app (a b : string) :
  String.length (a +:+ b) = (String.length a + String.length b)%nat.
Proof. induction a as [|c a IH]; simpl; [reflexivity | now rewrite IH]. Qed.

Lemma string_drop_split (n : nat) (s : string) :
  (n <= String.length s)%nat -> exists pre, s = pre +:+ string_drop n s.
Proof.
  revert s; induction n as [|n IH]; intros s Hn.
  - exists EmptyString. reflexivity.
  - destruct s as [|c s]; simpl in *; [lia|].
    destruct (IH s) as [pre Hpre]; [lia|].
    exists (String c pre).
    change (String c s = String c (pre +:+ string_drop n s)).
    now f_equal.
Qed.

(** [endswith s suffix] holds exactly when [s] is some string followed by
    [suffix]. *)
Lemma endswith_spec (s suffix : string) :
  endswith s suffix = true <-> exists pre, s = pre +:+ suffix.
Proof.
  unfold endswith. split.
  - intros H. apply andb_prop in H as [Hlen Heq].
    apply Nat.leb_le in Hlen. apply String.eqb_eq in Heq.
    destruct (string_drop_split (String.length s - String.length suffix) s)
      as [pre Hpre]; [lia|].
    exists pre. now rewrite Heq in Hpre.
  - intros [pre ->]. rewrite string_length_app.
    apply andb_true_intro. split.
    + apply Nat.leb_le. lia.
    + replace (String.length pre + String.length suffix - String.length suffix)%nat
        with (String.length pre) by lia.
      rewrite string_drop_app. apply String.eqb_refl.
Qed.

(** The test is case-sensitive. *)
Example endswith_case_sensitive :
  endswith "clip.mp3" ".mp3" = true /\ endswith "clip.MP3" ".mp3" = false
  /\ endswith "mp3" ".mp3" = false.
Proof. repeat split; reflexivity. Qed.

(** ** Schema selection *)

(** C8: the schema is a function of the [archived] flag alone: a string
    field when it is false, and the struct with the string field [path] and
    the binary field [bytes] when it is true. *)
Theorem schema_by_archived (self : Audio) :
  __call__ self =
    if archived self
    then pa_struct [("path", pa_string); ("bytes", pa_binary)]
    else pa_string.
Proof. unfold __call__. destruct (archived self); reflexivity. Qed.

(** ** The monad *)

Section MonadLaws.

Context {ndarray tensor : Type}.
Implicit Types w : world ndarray tensor.

Lemma bind_ok {A B} (m : M ndarray tensor A) (k : A -> M ndarray tensor B)
    w a w1 :
  m w = (Ok a, w1) -> bind m k w = k a w1.
Proof. unfold bind. now intros ->. Qed.

Lemma bind_raise {A B} (m : M ndarray tensor A) (k : A -> M ndarray tensor B)
    w e w1 :
  m w = (Raise e, w1) -> bind m k w = (Raise e, w1).
Proof. unfold bind. now intros ->. Qed.

Lemma bind_assoc {A B C} (m : M ndarray tensor A)
    (k : A -> M ndarray tensor B) (h : B -> M ndarray tensor C) w :
  bind (bind m k) h w = bind m (fun x => bind (k x) h) w.
Proof. unfold bind. destruct (m w) as [[a|e] w1]; reflexivity. Qed.

End MonadLaws.

(** ** What each method logs *)

Section Traces.

Context {ndarray tensor : Type}.
Variable E : Env ndarray tensor.
Implicit Types w : world ndarray tensor.

Lemma librosa_logs path w r w' :
  _decode_example_with_librosa E path w = (r, w') ->
  appends (fun ev => event_method ev = with_librosa) w w'.
Proof.
  unfold _decode_example_with_librosa, appends. run_monad. simpl.
  intros H. split_hyp H; inversion H; subst; close_trace.
Qed.

Lemma soundfile_logs file w r w' :
  _decode_example_with_soundfile E file w = (r, w') ->
  appends (fun ev => event_method ev = with_soundfile) w w'.
Proof.
  unfold _decode_example_with_soundfile, appends. run_monad. simpl.
  intros H. split_hyp H; inversion H; subst; close_trace.
Qed.

Lemma torchaudio_logs src w r w' :
  _decode_example_with_torchaudio E src w = (r, w') ->
  appends (fun ev => event_method ev = with_torchaudio) w w'.
Proof.
  unfold _decode_example_with_torchaudio, try_set_audio_backend,
    get_resampler, appends.
  run_monad. simpl.
  intros H. split_hyp H; inversion H; subst; close_trace.
Qed.

(** Running [m] and then packing its result leaves the log of [m]. *)
Lemma packed_run {A B} (m : M ndarray tensor A) (f : A -> B) w r w' :
  (let* x := m in ret (f x)) w = (r, w') ->
  exists r0, m w = (r0, w').
Proof.
  run_monad. destruct (m w) as [[x|e] w1]; intros H; inversion H; subst;
    eauto.
Qed.

Lemma packed_inv {A B} (m : M ndarray tensor A) (f : A -> B) w r w' :
  (let* x := m in ret (f x)) w = (r, w') ->
  exists r0, m w = (r0, w')
             /\ r = match r0 with Ok x => Ok (f x) | Raise e => Raise e end.
Proof.
  run_monad. destruct (m w) as [[x|e] w1]; intros H; inversion H; subst;
    eauto.
Qed.

Lemma packed_fst {A B} (m : M ndarray tensor A) (f : A -> B) w :
  fst ((let* x := m in ret (f x)) w)
  = match fst (m w) with Ok x => Ok (f x) | Raise e => Raise e end.
Proof. run_monad. destruct (m w) as [[x|e] w1]; reflexivity. Qed.

Lemma appends_impl (P Q : event ndarray tensor -> Prop) w w' :
  (forall ev, P ev -> Q ev) -> appends P w w' -> appends Q w w'.
Proof.
  intros HPQ (evs & Htr & Hall). exists evs. split; [exact Htr|].
  eapply Forall_impl; eassumption.
Qed.

Lemma appends_refl (P : event ndarray tensor -> Prop) w : appends P w w.
Proof. exists []. split; [symmetry; apply app_nil_r | constructor]. Qed.

End Traces.

(** ** Dispatch *)

Section Dispatch.

Context {ndarray tensor : Type}.
Variable E : Env ndarray tensor.
Implicit Types w : world ndarray tensor.

Lemma decode_example_archived w path bytes :
  archived (self_ w) = true ->
  decode_example E (VDict path bytes) w =
    (let* r := if endswith path ".mp3"
               then _decode_example_with_torchaudio E (FromBuffer bytes)
               else _decode_example_with_soundfile E bytes in
     ret (decoded path r)) w.
Proof.
  intros Ha. unfold decode_example, bind at 1, get_self. simpl.
  now rewrite Ha.
Qed.

Lemma decode_example_not_archived w path :
  archived (self_ w) = false ->
  decode_example E (VStr path) w =
    (let* r := if endswith path ".mp3"
               then _decode_example_with_torchaudio E (FromPath path)
               else _decode_example_with_librosa E path in
     ret (decoded path r)) w.
Proof.
  intros Ha. unfold decode_example, bind at 1, get_self. simpl.
  now rewrite Ha.
Qed.

(** On each route the decoder is called, on the reference itself. *)
Lemma torchaudio_calls_load src w r w' torchaudio :
  import_torchaudio E = Ok torchaudio ->
  set_audio_backend torchaudio "sox_io" = Ok tt ->
  _decode_example_with_torchaudio E src w = (r, w') ->
  (exists evs,
      trace w' = trace w ++ EvSetAudioBackend "sox_io"
                         :: EvTorchaudioLoad src :: evs)
  /\ (forall e, torchaudio_load torchaudio src = Raise e -> r = Raise e)
  /\ (forall x, r = Ok x ->
       exists t native, torchaudio_load torchaudio src = Ok (t, native)).
Proof.
  intros Hi Hsox.
  unfold _decode_example_with_torchaudio, try_set_audio_backend,
    get_resampler.
  run_monad. simpl. rewrite Hi. simpl. rewrite Hsox. simpl.
  destruct (torchaudio_load torchaudio src) as [[t native]|e0] eqn:Hload;
    simpl; intros H.
  - split; [|split].
    + split_hyp H; inversion H; subst; simpl; rewrite <- ?app_assoc; simpl;
        eexists; reflexivity.
    + discriminate.
    + eauto.
  - inversion H; subst; simpl. split; [|split].
    + rewrite <- app_assoc. simpl. now exists [].
    + intros e He. now inversion He.
    + discriminate.
Qed.

Lemma soundfile_calls_read file w r w' librosa sf :
  import_librosa E = Ok librosa ->
  import_soundfile E = Ok sf ->
  _decode_example_with_soundfile E file w = (r, w') ->
  (exists evs, trace w' = trace w ++ EvSfRead file :: evs)
  /\ (forall e, sf_read sf file = Raise e -> r = Raise e)
  /\ (forall x, r = Ok x -> exists raw native, sf_read sf file = Ok (raw, native)).
Proof.
  intros Hl Hs. unfold _decode_example_with_soundfile.
  run_monad. simpl. rewrite Hl, Hs. simpl.
  destruct (sf_read sf file) as [[raw native]|e0] eqn:Hread; simpl; intros H.
  - split; [|split].
    + split_hyp H; inversion H; subst; simpl; rewrite <- ?app_assoc; simpl;
        eexists; reflexivity.
    + discriminate.
    + eauto.
  - inversion H; subst; simpl. split; [|split].
    + now exists [].
    + intros e He. now inversion He.
    + discriminate.
Qed.

Lemma librosa_calls_load path w librosa :
  import_librosa E = Ok librosa ->
  (forall e, open_rb E path = Raise e ->
     _decode_example_with_librosa E path w
     = (Raise e, {| self_ := self_ w; trace := trace w ++ [EvOpen path] |}))
  /\ (forall f, open_rb E path = Ok f ->
     _decode_example_with_librosa E path w
     = (librosa_load librosa f (sampling_rate (self_ w)) (mono (self_ w)),
        {| self_ := self_ w;
           trace := trace w ++ [EvOpen path;
                                EvLibrosaLoad f (sampling_rate (self_ w))
                                              (mono (self_ w))] |})).
Proof.
  intros Hl. unfold _decode_example_with_librosa. run_monad. simpl.
  rewrite Hl. simpl. split.
  - intros e ->. reflexivity.
  - intros f ->. simpl. rewrite <- app_assoc. simpl.
    destruct (librosa_load librosa f _ _) as [[a sr]|e]; reflexivity.
Qed.

(** C1: a well-shaped reference whose path ends with [.mp3] is decoded by
    [_decode_example_with_torchaudio] in both storage modes; any other
    path is decoded by [_decode_example_with_soundfile] when [archived]
    is true and by [_decode_example_with_librosa] when it is false.  The
    only library calls made are those of the selected method, and once the
    imports of that method (and the selection of the [sox_io] backend)
    have succeeded, its decoder is called on the reference itself:
    [torchaudio.load] on the buffer or on the path, [sf.read] on the
    buffer, [librosa.load] on the file opened at the path; what that call
    raises is raised, and a result is returned only if that call returned
    one (for [librosa.load], the result is the one it returned). *)
Theorem decode_example_routing w path bytes :
  (archived (self_ w) = true ->
     decode_example E (VDict path bytes) w =
       (let* r := if endswith path ".mp3"
                  then _decode_example_with_torchaudio E (FromBuffer bytes)
                  else _decode_example_with_soundfile E bytes in
        ret (decoded path r)) w
     /\ forall r w', decode_example E (VDict path bytes) w = (r, w') ->
          appends (fun ev => event_method ev = selected true path) w w'
          /\ (endswith path ".mp3" = true ->
              forall torchaudio,
                import_torchaudio E = Ok torchaudio ->
                set_audio_backend torchaudio "sox_io" = Ok tt ->
                (exists evs,
                    trace w' = trace w ++ EvSetAudioBackend "sox_io"
                                 :: EvTorchaudioLoad (FromBuffer bytes) :: evs)
                /\ (forall e,
                       torchaudio_load torchaudio (FromBuffer bytes) = Raise e ->
                       r = Raise e)
                /\ (forall d, r = Ok d ->
                     exists t native,
                       torchaudio_load torchaudio (FromBuffer bytes)
                       = Ok (t, native)))
          /\ (endswith path ".mp3" = false ->
              forall librosa sf,
                import_librosa E = Ok librosa ->
                import_soundfile E = Ok sf ->
                (exists evs, trace w' = trace w ++ EvSfRead bytes :: evs)
                /\ (forall e, sf_read sf bytes = Raise e -> r = Raise e)
                /\ (forall d, r = Ok d ->
                     exists raw native, sf_read sf bytes = Ok (raw, native))))
  /\ (archived (self_ w) = false ->
     decode_example E (VStr path) w =
       (let* r := if endswith path ".mp3"
                  then _decode_example_with_torchaudio E (FromPath path)
                  else _decode_example_with_librosa E path in
        ret (decoded path r)) w
     /\ forall r w', decode_example E (VStr path) w = (r, w') ->
          appends (fun ev => event_method ev = selected false path) w w'
          /\ (endswith path ".mp3" = true ->
              forall torchaudio,
                import_torchaudio E = Ok torchaudio ->
                set_audio_backend torchaudio "sox_io" = Ok tt ->
                (exists evs,
                    trace w' = trace w ++ EvSetAudioBackend "sox_io"
                                 :: EvTorchaudioLoad (FromPath path) :: evs)
                /\ (forall e,
                       torchaudio_load torchaudio (FromPath path) = Raise e ->
                       r = Raise e)
                /\ (forall d, r = Ok d ->
                     exists t native,
                       torchaudio_load torchaudio (FromPath path)
                       = Ok (t, native)))
          /\ (endswith path ".mp3" = false ->
              forall librosa,
                import_librosa E = Ok librosa ->
                (forall e, open_rb E path = Raise e ->
                   r = Raise e
                   /\ trace w' = trace w ++ [EvOpen path])
                /\ (forall f, open_rb E path = Ok f ->
                   r = match librosa_load librosa f (sampling_rate (self_ w))
                                          (mono (self_ w)) with
                       | Ok x => Ok (decoded path x)
                       | Raise e => Raise e
                       end
                   /\ trace w' =
                        trace w ++ [EvOpen path;
                                    EvLibrosaLoad f (sampling_rate (self_ w))
                                                  (mono (self_ w))]))).
Proof.
  split; intros Ha.
  - split; [now apply decode_example_archived|].
    intros r w'. rewrite decode_example_archived by assumption.
    intros H. apply packed_inv in H as (r0 & H & ->). unfold selected.
    destruct (endswith path ".mp3"); (split; [|split]); try discriminate.
    + eapply torchaudio_logs; eassumption.
    + intros _ ta Hi Hsox.
      destruct (torchaudio_calls_load _ _ _ _ _ Hi Hsox H) as (Htr & He & Hok).
      split; [exact Htr|]. split.
      * intros e Hload. now rewrite (He e Hload).
      * intros d Hd. destruct r0 as [x|]; [eauto | discriminate].
    + eapply soundfile_logs; eassumption.
    + intros _ lib sf Hl Hs.
      destruct (soundfile_calls_read _ _ _ _ _ _ Hl Hs H) as (Htr & He & Hok).
      split; [exact Htr|]. split.
      * intros e Hread. now rewrite (He e Hread).
      * intros d Hd. destruct r0 as [x|]; [eauto | discriminate].
  - split; [now apply decode_example_not_archived|].
    intros r w'. rewrite decode_example_not_archived by assumption.
    intros H. apply packed_inv in H as (r0 & H & ->). unfold selected.
    destruct (endswith path ".mp3"); (split; [|split]); try discriminate.
    + eapply torchaudio_logs; eassumption.
    + intros _ ta Hi Hsox.
      destruct (torchaudio_calls_load _ _ _ _ _ Hi Hsox H) as (Htr & He & Hok).
      split; [exact Htr|]. split.
      * intros e Hload. now rewrite (He e Hload).
      * intros d Hd. destruct r0 as [x|]; [eauto | discriminate].
    + eapply librosa_logs; eassumption.
    + intros _ lib Hl.
      destruct (librosa_calls_load path w lib Hl) as (Hfail & Hload).
      split.
      * intros e Hopen. rewrite (Hfail e Hopen) in H.
        inversion H; subst. now split.
      * intros f Hopen. rewrite (Hload f Hopen) in H.
        inversion H; subst. now split.
Qed.

(** C4, as the code has it: a dict handed to an instance with
    [archived=False] raises an [AttributeError], and a bare path handed
    to an instance with [archived=True] raises a [TypeError]; in both
    cases nothing has been imported or called and the instance is
    unchanged. *)
Theorem shape_mismatch_raises_before_backends w path bytes :
  (archived (self_ w) = false ->
     exists msg,
       decode_example E (VDict path bytes) w
       = (Raise (Exc "AttributeError" msg), w))
  /\ (archived (self_ w) = true ->
     exists msg,
       decode_example E (VStr path) w = (Raise (Exc "TypeError" msg), w)).
Proof.
  split; intros Ha; eexists; unfold decode_example, bind, get_self, raise;
    rewrite Ha; reflexivity.
Qed.

End Dispatch.

(** ** Batch aggregation *)

Section Batch.

Context {ndarray tensor : Type}.
Variable E : Env ndarray tensor.
Implicit Types w : world ndarray tensor.
Implicit Types ds : list (list (string * pyobj ndarray)).

Lemma decode_example_shape v w d w' :
  decode_example E v w = (Ok d, w') -> exists path r, d = decoded path r.
Proof.
  intros H. destruct (archived (self_ w)) eqn:Ha, v as [path|path bytes].
  - unfold decode_example, bind, get_self, raise in H.
    rewrite Ha in H. discriminate.
  - rewrite decode_example_archived in H by assumption.
    unfold bind, ret in H.
    match type of H with context [?m w] => destruct (m w) as [[r|e] w1] end;
      inversion H; eauto.
  - rewrite decode_example_not_archived in H by assumption.
    unfold bind, ret in H.
    match type of H with context [?m w] => destruct (m w) as [[r|e] w1] end;
      inversion H; eauto.
  - unfold decode_example, bind, get_self, raise in H.
    rewrite Ha in H. discriminate.
Qed.

Lemma column_snoc k ds d x :
  dict_get k d = Some x -> column k (ds ++ [d]) = column k ds ++ [x].
Proof.
  intros Hk. unfold column. rewrite omap_app. simpl. now rewrite Hk.
Qed.

Lemma batch_of_snoc ds d : batch_of (ds ++ [d]) = columns (ds ++ [d]).
Proof. destruct ds; reflexivity. Qed.

Lemma append_items ds path r :
  fold_left append_to (decoded path r) (batch_of ds)
  = batch_of (ds ++ [decoded path r]).
Proof.
  rewrite batch_of_snoc. unfold columns.
  rewrite (column_snoc "path" ds _ (PyStr path)) by reflexivity.
  rewrite (column_snoc "array" ds _ (PyArray (fst r))) by reflexivity.
  rewrite (column_snoc "sampling_rate" ds _ (PyInt (snd r))) by reflexivity.
  destruct ds as [|d0 ds]; cbn [batch_of].
  - cbn [decoded fold_left append_to fst snd column omap app].
    unfold append_to; cbn [fst snd].
    rewrite !lookup_insert_ne by done. rewrite !lookup_empty.
    reflexivity.
  - unfold columns.
    generalize (column "path" (d0 :: ds)) (column "array" (d0 :: ds))
      (column "sampling_rate" (d0 :: ds)).
    intros c1 c2 c3. cbn [decoded fold_left]. unfold append_to; cbn [fst snd].
    apply map_eq; intros k.
    destruct (decide (k = "sampling_rate")) as [->|];
      [|destruct (decide (k = "array")) as [->|];
        [|destruct (decide (k = "path")) as [->|]]];
      simplify_map_eq; reflexivity.
Qed.

Lemma decode_batch_from_spec values ds0 w :
  decode_batch_from E values (batch_of ds0) w
  = (let* ds := decode_all E values in ret (batch_of (ds0 ++ ds))) w.
Proof.
  revert ds0 w; induction values as [|v values IH]; intros ds0 w.
  - cbn [decode_batch_from decode_all]. unfold bind, ret.
    now rewrite app_nil_r.
  - cbn [decode_batch_from decode_all]. rewrite bind_assoc.
    destruct (decode_example E v w) as [[d|e] w1] eqn:Hd.
    + rewrite !(bind_ok _ _ _ _ _ Hd).
      destruct (decode_example_shape _ _ _ _ Hd) as (path & r & ->).
      rewrite append_items, IH, bind_assoc.
      destruct (decode_all E values w1) as [[ds|e] w2] eqn:Hds.
      * rewrite !(bind_ok _ _ _ _ _ Hds). unfold bind, ret.
        now rewrite <- app_assoc.
      * now rewrite !(bind_raise _ _ _ _ _ Hds).
    + now rewrite !(bind_raise _ _ _ _ _ Hd).
Qed.

Lemma decode_all_shape values : forall w ds w',
  decode_all E values w = (Ok ds, w') ->
  length ds = length values
  /\ Forall (fun d => exists path r, d = decoded path r) ds.
Proof.
  induction values as [|v values IH]; intros w ds w'.
  - cbn. unfold ret. intros H; inversion H. split; [reflexivity|constructor].
  - cbn [decode_all]. unfold bind, ret.
    destruct (decode_example E v w) as [[d|e] w1] eqn:Hd; [|discriminate].
    destruct (decode_all E values w1) as [[ds1|e] w2] eqn:Hds; [|discriminate].
    intros H; inversion H; subst.
    destruct (IH _ _ _ Hds) as [Hlen Hall]. split.
    + simpl. now rewrite Hlen.
    + constructor; [eapply decode_example_shape; eassumption | assumption].
Qed.

Lemma column_complete k ds :
  k = "path" \/ k = "array" \/ k = "sampling_rate" ->
  Forall (fun d => exists path r, d = decoded path r) ds ->
  Forall2 (fun d x => dict_get k d = Some x) ds (column k ds).
Proof.
  intros Hk. induction 1 as [|d ds Hd _ IH]; [constructor|].
  destruct Hd as (path & r & ->).
  unfold column. cbn [omap].
  destruct Hk as [-> | [-> | ->]]; cbn; constructor; solve [reflexivity | exact IH].
Qed.

(** C10: on the empty sequence [decode_batch] returns the empty dict (no
    key is bound), without touching the instance or any library. *)
Theorem decode_batch_empty w :
  decode_batch E [] w = (Ok ∅, w).
Proof. reflexivity. Qed.

(** C6, for a non-empty sequence: [decode_batch] decodes the references
    in input order on the same instance and either raises what the first
    failing [decode_example] raised, or returns the dict with exactly the
    keys [path], [array] and [sampling_rate], each bound to the list of
    that entry of every decoded dict, in input order. *)
Theorem decode_batch_columns values w :
  values <> [] ->
  decode_batch E values w
    = (let* ds := decode_all E values in ret (columns ds)) w
  /\ forall ds w', decode_all E values w = (Ok ds, w') ->
       decode_batch E values w = (Ok (columns ds), w')
       /\ dom (columns ds) = ({["path"; "array"; "sampling_rate"]} : gset string)
       /\ length ds = length values
       /\ Forall2 (fun d x => dict_get "path" d = Some x) ds (column "path" ds)
       /\ Forall2 (fun d x => dict_get "array" d = Some x) ds (column "array" ds)
       /\ Forall2 (fun d x => dict_get "sampling_rate" d = Some x) ds
            (column "sampling_rate" ds).
Proof.
  intros Hne.
  assert (Heq : decode_batch E values w
                = (let* ds := decode_all E values in ret (columns ds)) w).
  { unfold decode_batch. change ∅ with (batch_of (V:=pyobj ndarray) []).
    rewrite decode_batch_from_spec. unfold bind, ret.
    destruct (decode_all E values w) as [[ds|e] w1] eqn:Hds; [|reflexivity].
    destruct (decode_all_shape _ _ _ _ Hds) as [Hlen _].
    destruct ds as [|d ds]; [|reflexivity].
    destruct values; [congruence|discriminate]. }
  split; [exact Heq|].
  intros ds w' Hds. destruct (decode_all_shape _ _ _ _ Hds) as [Hlen Hall].
  split; [|split; [|split; [|split; [|split]]]].
  - rewrite Heq. unfold bind, ret. now rewrite Hds.
  - unfold columns. apply set_eq; intros k.
    rewrite elem_of_dom, !elem_of_union, !elem_of_singleton.
    destruct (decide (k = "sampling_rate")) as [->|];
      [|destruct (decide (k = "array")) as [->|];
        [|destruct (decide (k = "path")) as [->|]]];
      simplify_map_eq; split; eauto; try (intros [? ?]; discriminate).
    intros [[?|?]|?]; congruence.
  - exact Hlen.
  - apply column_complete; auto.
  - apply column_complete; auto.
  - apply column_complete; auto.
Qed.

End Batch.

(** ** Post-processing *)

Section PostProcessing.

Context {ndarray tensor : Type}.
Variable E : Env ndarray tensor.
Implicit Types w : world ndarray tensor.

Lemma resample_wanted_spec self native target :
  resample_wanted self native = Some target
  <-> sampling_rate self = Some target /\ target <> 0 /\ target <> native.
Proof.
  unfold resample_wanted. destruct (sampling_rate self) as [t|].
  - destruct (Z.eqb_spec t 0), (Z.eqb_spec t native); simpl; split;
      try discriminate; try (intros [H1 [H2 H3]]; congruence).
    intros H; inversion H; subst. auto.
  - split; [discriminate | intros [H _]; discriminate].
Qed.


(** C9: for an archived reference whose path does not end with [.mp3],
    the array returned by [sf.read] is transposed first, and the mono and
    resampling steps are run on the transposed array. *)
Theorem soundfile_output_transposed_first w path file librosa sf raw native :
  archived (self_ w) = true ->
  endswith path ".mp3" = false ->
  import_librosa E = Ok librosa ->
  import_soundfile E = Ok sf ->
  sf_read sf file = Ok (raw, native) ->
  decode_example E (VDict path file) w =
    (let* r :=
       (let* array :=
          if mono (self_ w)
          then call (EvToMono (ndarray_T E raw))
                    (librosa_to_mono librosa (ndarray_T E raw))
          else ret (ndarray_T E raw) in
        match resample_wanted (self_ w) native with
        | Some target =>
            let* array :=
              call (EvLibrosaResample array native target "kaiser_best")
                   (librosa_resample librosa array native target
                                     "kaiser_best") in
            ret (array, target)
        | None => ret (array, native)
        end) in
     ret (decoded path r))
      {| self_ := self_ w; trace := trace w ++ [EvSfRead file] |}.
Proof.
  intros Ha Hmp3 Hl Hs Hread.
  rewrite decode_example_archived by assumption. rewrite Hmp3.
  unfold _decode_example_with_soundfile. run_monad. simpl.
  rewrite Hl, Hs. simpl. rewrite Hread. simpl. reflexivity.
Qed.

(** C3, as the code has it, for an instance with [mono=True].  With
    torchaudio the returned array is the mean over the channel axis of
    the loaded tensor, after that tensor has gone through the resampler
    when resampling is wanted: the downmix is the last step.  With
    soundfile the downmix ([librosa.to_mono]) is applied to the
    transposed output of [sf.read] and comes before the resampling.  With
    librosa the dispatcher applies no step of its own: it passes
    [mono=True] to [librosa.load] and returns its result. *)
Theorem mono_downmix_order w :
  mono (self_ w) = true ->
  (forall src a sr w',
      _decode_example_with_torchaudio E src w = (Ok (a, sr), w') ->
      exists torchaudio x0 native,
        import_torchaudio E = Ok torchaudio
        /\ torchaudio_load torchaudio src = Ok (x0, native)
        /\ match resample_wanted (self_ w) native with
           | Some target =>
               exists resampler x evs,
                 Resample_call torchaudio resampler x0 = Ok x
                 /\ a = ndarray_mean_axis0 E (tensor_numpy torchaudio x)
                 /\ sr = target
                 /\ trace w' =
                      trace w ++ evs
                        ++ [EvResampleCall resampler x0;
                            EvMean (tensor_numpy torchaudio x)]
                 /\ Forall (fun ev => is_downmix_event ev = false) evs
           | None =>
               a = ndarray_mean_axis0 E (tensor_numpy torchaudio x0)
               /\ sr = native
               /\ trace w' =
                    trace w ++ [EvSetAudioBackend "sox_io";
                                EvTorchaudioLoad src;
                                EvMean (tensor_numpy torchaudio x0)]
           end)
  /\ (forall file a sr w',
      _decode_example_with_soundfile E file w = (Ok (a, sr), w') ->
      exists librosa sf raw native y,
        import_librosa E = Ok librosa
        /\ import_soundfile E = Ok sf
        /\ sf_read sf file = Ok (raw, native)
        /\ librosa_to_mono librosa (ndarray_T E raw) = Ok y
        /\ match resample_wanted (self_ w) native with
           | Some target =>
               librosa_resample librosa y native target "kaiser_best" = Ok a
               /\ sr = target
               /\ trace w' =
                    trace w ++ [EvSfRead file; EvToMono (ndarray_T E raw);
                                EvLibrosaResample y native target
                                                  "kaiser_best"]
           | None =>
               a = y /\ sr = native
               /\ trace w' =
                    trace w ++ [EvSfRead file; EvToMono (ndarray_T E raw)]
           end)
  /\ (forall path a sr w',
      _decode_example_with_librosa E path w = (Ok (a, sr), w') ->
      exists librosa f,
        import_librosa E = Ok librosa
        /\ open_rb E path = Ok f
        /\ librosa_load librosa f (sampling_rate (self_ w)) true = Ok (a, sr)
        /\ trace w' =
             trace w ++ [EvOpen path;
                         EvLibrosaLoad f (sampling_rate (self_ w)) true]).
Proof.
  intros Hmono. split; [|split].
  - intros src a sr w'.
    unfold _decode_example_with_torchaudio, try_set_audio_backend,
      get_resampler.
    run_monad. simpl. intros H.
    destruct (import_torchaudio E) as [ta|e] eqn:Hta; simpl in H; rewrite ?Hmono in H; simpl in H.
    2: { split_hyp H; discriminate. }
    destruct (set_audio_backend ta "sox_io") as [[]|e] eqn:Hsox; simpl in H; rewrite ?Hmono in H; simpl in H.
    2: { split_hyp H; discriminate. }
    destruct (torchaudio_load ta src) as [[x0 native]|e] eqn:Hload;
      simpl in H; rewrite ?Hmono in H; simpl in H; [|discriminate].
    exists ta, x0, native.
    split; [reflexivity || assumption|]. split; [reflexivity || assumption|].
    destruct (resample_wanted (self_ w) native) as [target|]; simpl in H; rewrite ?Hmono in H; simpl in H.
    + destruct (_resampler (self_ w)) as [r|] eqn:Hcache; simpl in H; rewrite ?Hmono in H; simpl in H.
      * destruct (Resample_call ta r x0) as [x|e] eqn:Hres; simpl in H; rewrite ?Hmono in H; simpl in H;
          inversion H; subst.
        exists r, x, [EvSetAudioBackend "sox_io"; EvTorchaudioLoad src].
        simpl. rewrite <- !app_assoc. simpl.
        repeat split; try assumption; repeat constructor.
      * destruct (Resample_call ta {| orig_freq := native; new_freq := target |} x0)
          as [x|e] eqn:Hres; simpl in H; rewrite ?Hmono in H; simpl in H;
          inversion H; subst.
        exists {| orig_freq := native; new_freq := sr |}, x,
          [EvSetAudioBackend "sox_io"; EvTorchaudioLoad src;
           EvResampleNew native sr].
        simpl. rewrite <- !app_assoc. simpl.
        repeat split; try assumption; repeat constructor.
    + inversion H; subst. simpl. rewrite <- !app_assoc. simpl.
      repeat split; assumption.
  - intros file a sr w'.
    unfold _decode_example_with_soundfile. run_monad. simpl. intros H.
    destruct (import_librosa E) as [lib|e] eqn:Hlib; simpl in H; rewrite ?Hmono in H; simpl in H.
    2: { split_hyp H; discriminate. }
    destruct (import_soundfile E) as [sf|e] eqn:Hsf; simpl in H; rewrite ?Hmono in H; simpl in H.
    2: { split_hyp H; discriminate. }
    destruct (sf_read sf file) as [[raw native]|e] eqn:Hread; simpl in H; rewrite ?Hmono in H; simpl in H;
      [|discriminate].
    destruct (librosa_to_mono lib (ndarray_T E raw)) as [y|e] eqn:Hm;
      simpl in H; rewrite ?Hmono in H; simpl in H; [|discriminate].
    exists lib, sf, raw, native, y. repeat (split; [reflexivity || assumption|]).
    destruct (resample_wanted (self_ w) native) as [target|]; simpl in H; rewrite ?Hmono in H; simpl in H.
    + destruct (librosa_resample lib y native target "kaiser_best")
        as [a'|e] eqn:Hres; simpl in H; rewrite ?Hmono in H; simpl in H; inversion H; subst.
      simpl. rewrite <- !app_assoc. simpl. repeat split; assumption.
    + inversion H; subst. simpl. rewrite <- !app_assoc. simpl.
      repeat split; assumption.
  - intros path a sr w'.
    unfold _decode_example_with_librosa. run_monad. simpl. intros H.
    destruct (import_librosa E) as [lib|e] eqn:Hlib; simpl in H; rewrite ?Hmono in H; simpl in H.
    2: { split_hyp H; discriminate. }
    destruct (open_rb E path) as [f|e] eqn:Hopen; simpl in H; rewrite ?Hmono in H; simpl in H; [|discriminate].
    destruct (librosa_load lib f (sampling_rate (self_ w)) true)
      as [[a' sr']|e] eqn:Hload; simpl in H; rewrite ?Hmono in H; simpl in H; inversion H; subst.
    exists lib, f. simpl. rewrite <- !app_assoc. simpl.
    repeat split; assumption.
Qed.







End PostProcessing.

(** ** Import guards *)

Section ImportGuards.

Context {ndarray tensor : Type}.
Variable E : Env ndarray tensor.
Implicit Types w : world ndarray tensor.

Lemma torchaudio_missing src w e :
  import_torchaudio E = Raise e -> isinstance e "ImportError" = true ->
  _decode_example_with_torchaudio E src w
  = (Raise (Exc "ImportError" msg_torchaudio), w).
Proof.
  intros Himp He. unfold _decode_example_with_torchaudio. run_monad.
  rewrite Himp, He. reflexivity.
Qed.

Lemma sox_missing src w torchaudio e :
  import_torchaudio E = Ok torchaudio ->
  set_audio_backend torchaudio "sox_io" = Raise e ->
  isinstance e "RuntimeError" = true ->
  _decode_example_with_torchaudio E src w
  = (Raise (Exc "ImportError" msg_sox),
     {| self_ := self_ w; trace := trace w ++ [EvSetAudioBackend "sox_io"] |}).
Proof.
  intros Himp Hsox He.
  unfold _decode_example_with_torchaudio, try_set_audio_backend. run_monad.
  rewrite Himp. simpl. rewrite Hsox, He. reflexivity.
Qed.

Lemma librosa_missing_path path w e :
  import_librosa E = Raise e -> isinstance e "ImportError" = true ->
  _decode_example_with_librosa E path w
  = (Raise (Exc "ImportError" msg_librosa), w).
Proof.
  intros Himp He. unfold _decode_example_with_librosa. run_monad.
  rewrite Himp, He. reflexivity.
Qed.

Lemma librosa_missing_buffer file w e :
  import_librosa E = Raise e -> isinstance e "ImportError" = true ->
  _decode_example_with_soundfile E file w
  = (Raise (Exc "ImportError" msg_librosa), w).
Proof.
  intros Himp He. unfold _decode_example_with_soundfile. run_monad.
  rewrite Himp, He. reflexivity.
Qed.

Lemma soundfile_missing file w librosa e :
  import_librosa E = Ok librosa ->
  import_soundfile E = Raise e -> isinstance e "ImportError" = true ->
  _decode_example_with_soundfile E file w
  = (Raise (Exc "ImportError" msg_librosa), w).
Proof.
  intros Hl Himp He. unfold _decode_example_with_soundfile. run_monad.
  rewrite Hl. simpl. rewrite Himp, He. reflexivity.
Qed.

(** C7, as the code has it.  An import that raises [ImportError] (or an
    exception of a subclass, such as [ModuleNotFoundError]) is reported by
    an [ImportError] that names a library to install.  When [torchaudio]
    cannot be imported, a reference ending with [.mp3] fails with the one
    that names ['torchaudio'] and ['mp3'], in both storage modes, before
    any library call; when the [sox_io] backend cannot be selected
    ([RuntimeError]) it fails with the one that names ['sox'], right after
    that attempt.  When [librosa] cannot be imported, any other reference
    fails with the one that names ['librosa'], in both storage modes,
    before any library call; and when [soundfile] cannot be imported, an
    archived reference of that kind fails with that same error, which
    does not mention soundfile.  The three messages differ from one
    another. *)
Theorem missing_library_reported w path bytes :
  (forall e,
      import_torchaudio E = Raise e -> isinstance e "ImportError" = true ->
      endswith path ".mp3" = true ->
      (archived (self_ w) = true ->
         decode_example E (VDict path bytes) w
         = (Raise (Exc "ImportError" msg_torchaudio), w))
      /\ (archived (self_ w) = false ->
         decode_example E (VStr path) w
         = (Raise (Exc "ImportError" msg_torchaudio), w)))
  /\ (forall torchaudio e,
      import_torchaudio E = Ok torchaudio ->
      set_audio_backend torchaudio "sox_io" = Raise e ->
      isinstance e "RuntimeError" = true ->
      endswith path ".mp3" = true ->
      let w1 := {| self_ := self_ w;
                   trace := trace w ++ [EvSetAudioBackend "sox_io"] |} in
      (archived (self_ w) = true ->
         decode_example E (VDict path bytes) w
         = (Raise (Exc "ImportError" msg_sox), w1))
      /\ (archived (self_ w) = false ->
         decode_example E (VStr path) w
         = (Raise (Exc "ImportError" msg_sox), w1)))
  /\ (forall e,
      import_librosa E = Raise e -> isinstance e "ImportError" = true ->
      endswith path ".mp3" = false ->
      (archived (self_ w) = true ->
         decode_example E (VDict path bytes) w
         = (Raise (Exc "ImportError" msg_librosa), w))
      /\ (archived (self_ w) = false ->
         decode_example E (VStr path) w
         = (Raise (Exc "ImportError" msg_librosa), w)))
  /\ (forall librosa e,
      import_librosa E = Ok librosa ->
      import_soundfile E = Raise e -> isinstance e "ImportError" = true ->
      endswith path ".mp3" = false ->
      archived (self_ w) = true ->
      decode_example E (VDict path bytes) w
      = (Raise (Exc "ImportError" msg_librosa), w))
  /\ (contains msg_torchaudio "'torchaudio'" = true
      /\ contains msg_torchaudio "'mp3'" = true
      /\ contains msg_sox "'sox'" = true
      /\ contains msg_librosa "'librosa'" = true
      /\ contains msg_librosa "soundfile" = false
      /\ msg_torchaudio <> msg_librosa
      /\ msg_torchaudio <> msg_sox
      /\ msg_sox <> msg_librosa).
Proof.
  split; [|split; [|split; [|split]]].
  - intros e Himp He Hmp3. split; intros Ha.
    + rewrite decode_example_archived by assumption. rewrite Hmp3.
      erewrite bind_raise; [reflexivity|].
      eapply torchaudio_missing; eassumption.
    + rewrite decode_example_not_archived by assumption. rewrite Hmp3.
      erewrite bind_raise; [reflexivity|].
      eapply torchaudio_missing; eassumption.
  - intros ta e Himp Hsox He Hmp3 w1. split; intros Ha.
    + rewrite decode_example_archived by assumption. rewrite Hmp3.
      erewrite bind_raise; [reflexivity|].
      eapply sox_missing; eassumption.
    + rewrite decode_example_not_archived by assumption. rewrite Hmp3.
      erewrite bind_raise; [reflexivity|].
      eapply sox_missing; eassumption.
  - intros e Himp He Hmp3. split; intros Ha.
    + rewrite decode_example_archived by assumption. rewrite Hmp3.
      erewrite bind_raise; [reflexivity|].
      eapply librosa_missing_buffer; eassumption.
    + rewrite decode_example_not_archived by assumption. rewrite Hmp3.
      erewrite bind_raise; [reflexivity|].
      eapply librosa_missing_path; eassumption.
  - intros lib e Hl Himp He Hmp3 Ha.
    rewrite decode_example_archived by assumption. rewrite Hmp3.
    erewrite bind_raise; [reflexivity|].
    eapply soundfile_missing; eassumption.
  - repeat split; try reflexivity; discriminate.
Qed.

End ImportGuards.

(** ** The cached resampler *)

Section ResamplerCache.

Context {ndarray tensor : Type}.
Variable E : Env ndarray tensor.
Implicit Types w : world ndarray tensor.

(** The resampler call and the downmix of
    [_decode_example_with_torchaudio], with the resampler [r]. *)
Lemma torchaudio_resampling_step src w torchaudio x0 native target :
  import_torchaudio E = Ok torchaudio ->
  set_audio_backend torchaudio "sox_io" = Ok tt ->
  torchaudio_load torchaudio src = Ok (x0, native) ->
  resample_wanted (self_ w) native = Some target ->
  let r := default {| orig_freq := native; new_freq := target |}
                   (_resampler (self_ w)) in
  exists w1,
    self_ w1 = set_resampler (self_ w) r
    /\ _decode_example_with_torchaudio E src w =
         (let* x := call (EvResampleCall r x0) (Resample_call torchaudio r x0) in
          let* a :=
            if mono (self_ w)
            then call (EvMean (tensor_numpy torchaudio x))
                      (Ok (ndarray_mean_axis0 E (tensor_numpy torchaudio x)))
            else ret (tensor_numpy torchaudio x) in
          ret (a, target)) w1.
Proof.
  intros Himp Hsox Hload Hwant r.
  unfold _decode_example_with_torchaudio, try_set_audio_backend,
    get_resampler.
  run_monad. simpl. rewrite Himp. simpl. rewrite Hsox. simpl.
  rewrite Hload. simpl. rewrite Hwant. simpl. subst r.
  destruct (_resampler (self_ w)) as [r0|] eqn:Hc; simpl.
  - eexists {| self_ := self_ w; trace := _ |}. split.
    + simpl. unfold set_resampler. rewrite <- Hc. now destruct (self_ w).
    + simpl. destruct (Resample_call torchaudio r0 x0); simpl;
        [destruct (mono (self_ w))|]; reflexivity.
  - eexists {| self_ := _; trace := _ |}. split; [reflexivity|].
    simpl. destruct (Resample_call torchaudio _ x0); simpl;
        [destruct (mono (self_ w))|]; reflexivity.
Qed.

(** After a call that resampled, the attribute exists; every later call
    on the instance uses it, whatever the rate of the file. *)
Lemma resampler_kept src w r w' cached :
  _resampler (self_ w) = Some cached ->
  _decode_example_with_torchaudio E src w = (r, w') ->
  _resampler (self_ w') = Some cached.
Proof.
  intros Hc. unfold _decode_example_with_torchaudio, try_set_audio_backend,
    get_resampler.
  run_monad. simpl. intros H.
  split_hyp H; inversion H; subst; simpl; congruence.
Qed.

(** As long as the cached resampler was constructed for the rates of the
    current call, the call returns what it returns on an instance without
    the attribute. *)
Lemma matching_resampler_invisible src w torchaudio x0 native target :
  import_torchaudio E = Ok torchaudio ->
  torchaudio_load torchaudio src = Ok (x0, native) ->
  resample_wanted (self_ w) native = Some target ->
  _resampler (self_ w) = Some {| orig_freq := native; new_freq := target |} ->
  fst (_decode_example_with_torchaudio E src w)
  = fst (_decode_example_with_torchaudio E src
           {| self_ := without_resampler (self_ w); trace := trace w |}).
Proof.
  intros Himp Hload Hwant Hc.
  unfold _decode_example_with_torchaudio, try_set_audio_backend,
    get_resampler.
  run_monad. simpl. rewrite Himp. simpl.
  destruct (set_audio_backend torchaudio "sox_io") as [[]|e]; simpl.
  - rewrite Hload. simpl.
    change (resample_wanted (without_resampler (self_ w)) native)
      with (resample_wanted (self_ w) native).
    rewrite Hwant. simpl. rewrite Hc. simpl.
    destruct (Resample_call torchaudio _ x0); simpl;
      [destruct (mono (self_ w))|]; reflexivity.
  - destruct (isinstance e "RuntimeError"); reflexivity.
Qed.

End ResamplerCache.

(** ** Runs on the concrete environment *)

Section Runs.

Import Demo.

(** The frames of [stereo4], as [sf.read] returns them (one row per
    frame), and their transpose (one row per channel). *)
Example stereo4_layout :
  sf_read soundfile stereo4
    = Ok (A2 [[0; 100]; [10; 110]; [20; 120]; [30; 130]], 4)
  /\ T (A2 [[0; 100]; [10; 110]; [20; 120]; [30; 130]])
     = A2 [[0; 10; 20; 30]; [100; 110; 120; 130]].
Proof. split; reflexivity. Qed.

Lemma decode_example_routing_witness :
  let w1 := start (Audio_init None true true) in
  let run1 := decode_example full (VDict "clip.mp3" stereo4) w1 in
  let w2 := start (Audio_init None true false) in
  let run2 := decode_example full (VStr "/data/a.wav") w2 in
  (appends (fun ev => event_method ev = with_torchaudio) w1 (snd run1)
   /\ (exists evs,
         trace (snd run1)
         = trace w1 ++ EvSetAudioBackend "sox_io"
                    :: EvTorchaudioLoad (FromBuffer stereo4) :: evs)
   /\ (forall d, fst run1 = Ok d ->
        exists t native,
          torchaudio_load (torchaudio true) (FromBuffer stereo4)
          = Ok (t, native)))
  /\ (appends (fun ev => event_method ev = with_librosa) w2 (snd run2)
      /\ fst run2
         = match librosa_load librosa stereo4 None true with
           | Ok x => Ok (decoded "/data/a.wav" x)
           | Raise e => Raise e
           end
      /\ trace (snd run2)
         = trace w2 ++ [EvOpen "/data/a.wav"; EvLibrosaLoad stereo4 None true]).
Proof.
  intros w1 run1 w2 run2. split.
  - destruct (decode_example_routing full w1 "clip.mp3" stereo4)
      as [Harchived _].
    destruct (proj2 (Harchived eq_refl) (fst run1) (snd run1)
                (surjective_pairing run1)) as (Hlog & Hmp3 & _).
    destruct (Hmp3 eq_refl (torchaudio true) eq_refl eq_refl)
      as (Hcall & _ & Hok).
    split; [exact Hlog|]. split; [exact Hcall | exact Hok].
  - destruct (decode_example_routing full w2 "/data/a.wav" [])
      as [_ Hplain].
    destruct (proj2 (Hplain eq_refl) (fst run2) (snd run2)
                (surjective_pairing run2)) as (Hlog & _ & Hother).
    destruct (proj2 (Hother eq_refl librosa eq_refl) stereo4 eq_refl)
      as (Hres & Htr).
    split; [exact Hlog|]. split; [exact Hres | exact Htr].
Defined.

(** C4 as stated fails: the exception raised for a dict handed to an
    instance with [archived=False] is an [AttributeError]; no
    [MalformedReference] is raised. *)
Lemma shape_mismatch_is_not_MalformedReference :
  ~ exists e w',
      decode_example full (VDict "clip.wav" stereo4)
                     (start (Audio_init None true false)) = (Raise e, w')
      /\ exc_class e = "MalformedReference".
Proof.
  intros (e & w' & Hrun & Hclass).
  vm_compute in Hrun. inversion Hrun; subst. discriminate Hclass.
Qed.

Lemma shape_mismatch_raises_before_backends_witness :
  (exists msg,
      decode_example full (VDict "clip.wav" stereo4)
                     (start (Audio_init None true false))
      = (Raise (Exc "AttributeError" msg),
         start (Audio_init None true false)))
  /\ (exists msg,
      decode_example full (VStr "/data/a.wav")
                     (start (Audio_init None true true))
      = (Raise (Exc "TypeError" msg), start (Audio_init None true true))).
Proof.
  split.
  - exact (proj1 (shape_mismatch_raises_before_backends full
                    (start (Audio_init None true false))
                    "clip.wav" stereo4) eq_refl).
  - exact (proj2 (shape_mismatch_raises_before_backends full
                    (start (Audio_init None true true))
                    "/data/a.wav" []) eq_refl).
Defined.

(** C6 as stated fails on the empty sequence: the returned dict has no
    key [path]. *)
Lemma decode_batch_empty_has_no_path_column :
  ~ exists m w' col,
      decode_batch full [] (start (Audio_init None true false)) = (Ok m, w')
      /\ m !! "path" = Some col.
Proof.
  intros (m & w' & col & Hrun & Hcol).
  cbv [decode_batch decode_batch_from ret] in Hrun.
  inversion Hrun; subst. rewrite lookup_empty in Hcol. discriminate.
Qed.

Lemma decode_batch_columns_witness :
  decode_batch full [VStr "/data/a.mp3"; VStr "/data/a.wav"]
               (start (Audio_init None true false))
  = (let* ds := decode_all full [VStr "/data/a.mp3"; VStr "/data/a.wav"] in
     ret (columns ds)) (start (Audio_init None true false)).
Proof.
  refine (proj1 (decode_batch_columns full
                   [VStr "/data/a.mp3"; VStr "/data/a.wav"]
                   (start (Audio_init None true false)) _)).
  discriminate.
Defined.

(** The two columns of that batch, in input order. *)
Example decode_batch_two_files :
  exists m w',
    decode_batch full [VStr "/data/a.mp3"; VStr "/data/a.wav"]
                 (start (Audio_init None true false)) = (Ok m, w')
    /\ m !! "path" = Some [PyStr "/data/a.mp3"; PyStr "/data/a.wav"]
    /\ m !! "sampling_rate" = Some [PyInt 4; PyInt 4]
    /\ m !! "array"
       = Some [PyArray (A1 [50; 60; 70; 80]); PyArray (A1 [50; 60; 70; 80])].
Proof.
  eexists _, _. split; [reflexivity|]. repeat split.
Qed.

(** C3 as stated fails with soundfile: the downmix is logged before
    the resampling, and the resampler is handed the mono array. *)
Lemma soundfile_downmix_precedes_resampling :
  let w := start (Audio_init (Some 2) true true) in
  let run := decode_example full (VDict "clip.wav" stereo4) w in
  fst run = Ok (decoded "clip.wav" (A1 [50; 70], 2))
  /\ trace (snd run)
     = [EvSfRead stereo4;
        EvToMono (A2 [[0; 10; 20; 30]; [100; 110; 120; 130]]);
        EvLibrosaResample (A1 [50; 60; 70; 80]) 4 2 "kaiser_best"]
  /\ ~ downmix_after_resample (trace (snd run)).
Proof.
  intros w run. split; [reflexivity|]. split; [reflexivity|].
  intros Horder.
  specialize (Horder 1%nat 2%nat
                (EvToMono (A2 [[0; 10; 20; 30]; [100; 110; 120; 130]]))
                (EvLibrosaResample (A1 [50; 60; 70; 80]) 4 2 "kaiser_best")
                eq_refl eq_refl eq_refl eq_refl).
  lia.
Qed.

Lemma mono_downmix_order_witness :
  let w := start (Audio_init (Some 2) true false) in
  mono (self_ w) = true
  /\ forall a sr w',
      _decode_example_with_torchaudio full (FromPath "/data/a.mp3") w
        = (Ok (a, sr), w') ->
      exists torchaudio x0 native,
        import_torchaudio full = Ok torchaudio
        /\ torchaudio_load torchaudio (FromPath "/data/a.mp3")
           = Ok (x0, native)
        /\ match resample_wanted (self_ w) native with
           | Some target =>
               exists resampler x evs,
                 Resample_call torchaudio resampler x0 = Ok x
                 /\ a = ndarray_mean_axis0 full (tensor_numpy torchaudio x)
                 /\ sr = target
                 /\ trace w' =
                      trace w ++ evs
                        ++ [EvResampleCall resampler x0;
                            EvMean (tensor_numpy torchaudio x)]
                 /\ Forall (fun ev => is_downmix_event ev = false) evs
           | None =>
               a = ndarray_mean_axis0 full (tensor_numpy torchaudio x0)
               /\ sr = native
               /\ trace w' =
                    trace w ++ [EvSetAudioBackend "sox_io";
                                EvTorchaudioLoad (FromPath "/data/a.mp3");
                                EvMean (tensor_numpy torchaudio x0)]
           end.
Proof.
  intros w. split; [reflexivity|].
  intros a sr w'.
  exact (proj1 (mono_downmix_order full w eq_refl)
           (FromPath "/data/a.mp3") a sr w').
Defined.

(** A two-channel file decoded with [mono=True] by torchaudio: the
    channel average of the resampled signal. *)
Example torchaudio_two_channels_mono :
  decode_example full (VStr "/data/a.mp3")
                 (start (Audio_init (Some 2) true false))
  = (Ok (decoded "/data/a.mp3" (A1 [50; 70], 2)),
     {| self_ := set_resampler (Audio_init (Some 2) true false)
                   {| orig_freq := 4; new_freq := 2 |};
        trace := [EvSetAudioBackend "sox_io";
                  EvTorchaudioLoad (FromPath "/data/a.mp3");
                  EvResampleNew 4 2;
                  EvResampleCall {| orig_freq := 4; new_freq := 2 |}
                    [[0; 10; 20; 30]; [100; 110; 120; 130]];
                  EvMean (A2 [[0; 20]; [100; 120]])] |}).
Proof. reflexivity. Qed.


(** C7 as stated fails for the buffer decoder: with soundfile missing
    (and librosa installed) the error is the very one raised when
    librosa is missing, and its message does not mention soundfile. *)
Lemma missing_soundfile_reported_as_librosa :
  let without_soundfile :=
    fst (decode_example (env true false true true)
           (VDict "clip.wav" stereo4) (start (Audio_init None true true))) in
  let without_librosa :=
    fst (decode_example (env false true true true)
           (VStr "/data/a.wav") (start (Audio_init None true false))) in
  without_soundfile = Raise (Exc "ImportError" msg_librosa)
  /\ without_soundfile = without_librosa
  /\ contains msg_librosa "soundfile" = false.
Proof. repeat split. Qed.

Lemma missing_library_reported_witness :
  decode_example (env true true false true) (VStr "/data/a.mp3")
                 (start (Audio_init None true false))
    = (Raise (Exc "ImportError" msg_torchaudio),
       start (Audio_init None true false))
  /\ decode_example (env false true true true) (VStr "/data/a.wav")
                    (start (Audio_init None true false))
    = (Raise (Exc "ImportError" msg_librosa),
       start (Audio_init None true false))
  /\ decode_example (env true false true true) (VDict "clip.wav" stereo4)
                    (start (Audio_init None true true))
    = (Raise (Exc "ImportError" msg_librosa),
       start (Audio_init None true true))
  /\ decode_example (env true true true false) (VStr "/data/a.mp3")
                    (start (Audio_init None true false))
    = (Raise (Exc "ImportError" msg_sox),
       {| self_ := Audio_init None true false;
          trace := [EvSetAudioBackend "sox_io"] |}).
Proof.
  split; [|split; [|split]].
  - destruct (missing_library_reported (env true true false true)
                (start (Audio_init None true false)) "/data/a.mp3" [])
      as (Htorchaudio & _).
    exact (proj2 (Htorchaudio _ eq_refl eq_refl eq_refl) eq_refl).
  - destruct (missing_library_reported (env false true true true)
                (start (Audio_init None true false)) "/data/a.wav" [])
      as (_ & _ & Hlibrosa & _).
    exact (proj2 (Hlibrosa _ eq_refl eq_refl eq_refl) eq_refl).
  - destruct (missing_library_reported (env true false true true)
                (start (Audio_init None true true)) "clip.wav" stereo4)
      as (_ & _ & _ & Hsoundfile & _).
    exact (Hsoundfile librosa _ eq_refl eq_refl eq_refl eq_refl eq_refl).
  - destruct (missing_library_reported (env true true true false)
                (start (Audio_init None true false)) "/data/a.mp3" [])
      as (_ & Hsox & _).
    exact (proj2 (Hsox (torchaudio false) _ eq_refl eq_refl eq_refl eq_refl)
             eq_refl).
Defined.

Lemma soundfile_output_transposed_first_witness :
  let w := start (Audio_init (Some 2) true true) in
  let raw := A2 [[0; 100]; [10; 110]; [20; 120]; [30; 130]] in
  decode_example full (VDict "clip.wav" stereo4) w =
    (let* r :=
       (let* array :=
          call (EvToMono (T raw)) (librosa_to_mono librosa (T raw)) in
        let* array :=
          call (EvLibrosaResample array 4 2 "kaiser_best")
               (librosa_resample librosa array 4 2 "kaiser_best") in
        ret (array, 2)) in
     ret (decoded "clip.wav" r))
      {| self_ := self_ w; trace := trace w ++ [EvSfRead stereo4] |}.
Proof.
  intros w raw.
  exact (soundfile_output_transposed_first full w "clip.wav" stereo4
           librosa soundfile raw 4 eq_refl eq_refl eq_refl eq_refl eq_refl).
Defined.

(** C2 fails on the code: an instance with [sampling_rate=2] decodes a
    4 Hz file and then an 8 Hz file.  The second call reuses the
    resampler constructed for 4 Hz and returns four samples per channel
    labelled 2 Hz; a resampler constructed for that call (8 Hz to 2 Hz)
    returns two. *)
Theorem stale_resampler_changes_output :
  let self := Audio_init (Some 2) false false in
  let after_first :=
    snd (decode_example full (VStr "/data/a.mp3") (start self)) in
  let in_sequence :=
    fst (decode_example full (VStr "/data/b.mp3") after_first) in
  let on_fresh_instance :=
    fst (decode_example full (VStr "/data/b.mp3") (start self)) in
  native_rate full self (VStr "/data/a.mp3") = Some 4
  /\ native_rate full self (VStr "/data/b.mp3") = Some 8
  /\ _resampler (self_ after_first) = Some {| orig_freq := 4; new_freq := 2 |}
  /\ in_sequence
     = Ok (decoded "/data/b.mp3"
             (A2 [[0; 20; 40; 60]; [100; 120; 140; 160]], 2))
  /\ on_fresh_instance
     = Ok (decoded "/data/b.mp3" (A2 [[0; 40]; [100; 140]], 2))
  /\ in_sequence <> on_fresh_instance.
Proof.
  intros self after_first in_sequence on_fresh_instance.
  assert (Hseq : in_sequence
                 = Ok (decoded "/data/b.mp3"
                         (A2 [[0; 20; 40; 60]; [100; 120; 140; 160]], 2)))
    by reflexivity.
  assert (Hfresh : on_fresh_instance
                   = Ok (decoded "/data/b.mp3" (A2 [[0; 40]; [100; 140]], 2)))
    by reflexivity.
  repeat split; try reflexivity.
  rewrite Hseq, Hfresh. intros Heq. inversion Heq.
Qed.

End Runs.


(** * Further properties of the methods *)

(** ** What a call does to the instance *)

Section Instance.

Context {ndarray tensor : Type}.
Variable E : Env ndarray tensor.
Implicit Types w : world ndarray tensor.

Lemma librosa_instance path w r w' :
  _decode_example_with_librosa E path w = (r, w') -> self_ w' = self_ w.
Proof.
  unfold _decode_example_with_librosa. run_monad. simpl.
  intros H. split_hyp H; inversion H; subst; reflexivity.
Qed.

Lemma soundfile_instance file w r w' :
  _decode_example_with_soundfile E file w = (r, w') -> self_ w' = self_ w.
Proof.
  unfold _decode_example_with_soundfile. run_monad. simpl.
  intros H. split_hyp H; inversion H; subst; reflexivity.
Qed.

(** The only assignment to the instance: the first resampler, built from
    the rate of the file being decoded and from [sampling_rate]. *)
Lemma torchaudio_instance src w r w' :
  _decode_example_with_torchaudio E src w = (r, w') ->
  self_ w' = self_ w
  \/ (_resampler (self_ w) = None
      /\ exists native target,
          torchaudio_rate E src = Some native
          /\ resample_wanted (self_ w) native = Some target
          /\ self_ w' = set_resampler (self_ w)
                          {| orig_freq := native; new_freq := target |}).
Proof.
  unfold _decode_example_with_torchaudio, try_set_audio_backend,
    get_resampler, torchaudio_rate.
  run_monad. simpl.
  intros H. split_hyp H; inversion H; subst; simpl;
    solve [ left; reflexivity
          | right; split; [reflexivity || assumption|]; do 2 eexists;
            split; [use_eqns; simpl; use_eqns; reflexivity|];
            split; [reflexivity || eassumption | reflexivity] ].
Qed.

Lemma decode_example_instance v w r w' :
  decode_example E v w = (r, w') ->
  self_ w' = self_ w
  \/ (endswith (path_of v) ".mp3" = true
      /\ _resampler (self_ w) = None
      /\ exists native target,
          native_rate E (self_ w) v = Some native
          /\ resample_wanted (self_ w) native = Some target
          /\ self_ w' = set_resampler (self_ w)
                          {| orig_freq := native; new_freq := target |}).
Proof.
  intros H. destruct (archived (self_ w)) eqn:Ha, v as [path|path bytes].
  - unfold decode_example, bind, get_self, raise in H. rewrite Ha in H.
    inversion H; subst. now left.
  - rewrite decode_example_archived in H by assumption.
    apply packed_inv in H as (r0 & Hrun & _).
    unfold native_rate, path_of. rewrite Ha.
    destruct (endswith path ".mp3").
    + apply torchaudio_instance in Hrun as [Hsame|(Hnone & Hnew)]; auto.
    + left. eapply soundfile_instance; eassumption.
  - rewrite decode_example_not_archived in H by assumption.
    apply packed_inv in H as (r0 & Hrun & _).
    unfold native_rate, path_of. rewrite Ha.
    destruct (endswith path ".mp3").
    + apply torchaudio_instance in Hrun as [Hsame|(Hnone & Hnew)]; auto.
    + left. eapply librosa_instance; eassumption.
  - unfold decode_example, bind, get_self, raise in H. rewrite Ha in H.
    inversion H; subst. now left.
Qed.

Lemma later_instance_refl self : later_instance self self.
Proof. split; [reflexivity | auto]. Qed.

Lemma later_instance_trans a b c :
  later_instance a b -> later_instance b c -> later_instance a c.
Proof.
  intros [Hf1 Hr1] [Hf2 Hr2]. split; [congruence | auto].
Qed.

Lemma decode_example_later v w r w' :
  decode_example E v w = (r, w') -> later_instance (self_ w) (self_ w').
Proof.
  intros H. apply decode_example_instance in H
    as [->|(_ & Hnone & native & target & _ & _ & ->)].
  - apply later_instance_refl.
  - split; [reflexivity|]. intros cached Hc. congruence.
Qed.

Lemma decode_batch_from_later values : forall acc w r w',
  decode_batch_from E values acc w = (r, w') ->
  later_instance (self_ w) (self_ w').
Proof.
  induction values as [|v values IH]; intros acc w r w' H.
  - cbn in H. unfold ret in H. inversion H; subst. apply later_instance_refl.
  - cbn [decode_batch_from] in H. unfold bind in H.
    destruct (decode_example E v w) as [[d|e] w1] eqn:Hd.
    + eapply later_instance_trans; [eapply decode_example_later; eassumption|].
      eapply IH; eassumption.
    + inversion H; subst. eapply decode_example_later; eassumption.
Qed.

Lemma later_instance_with_resampler self self' cached :
  later_instance self self' -> _resampler self = Some cached -> self' = self.
Proof.
  intros [Hf Hr] Hc. specialize (Hr _ Hc). unfold fields in Hf.
  destruct self, self'; simpl in *. inversion Hf; subst. congruence.
Qed.

(** X1: whatever it returns or raises, [decode_example] leaves the fields
    of the instance as they are; it leaves the whole instance as it is when
    the path does not end with [.mp3], and when the instance already has a
    resampler. *)
Theorem decode_example_keeps_instance v w r w' :
  decode_example E v w = (r, w') ->
  (sampling_rate (self_ w') = sampling_rate (self_ w)
   /\ mono (self_ w') = mono (self_ w)
   /\ archived (self_ w') = archived (self_ w)
   /\ id (self_ w') = id (self_ w))
  /\ (endswith (path_of v) ".mp3" = false -> self_ w' = self_ w)
  /\ (forall cached, _resampler (self_ w) = Some cached -> self_ w' = self_ w).
Proof.
  intros H. split; [|split].
  - destruct (decode_example_later _ _ _ _ H) as [Hf _].
    unfold fields in Hf. inversion Hf. auto.
  - intros Hmp3. apply decode_example_instance in H as [Hs|(Hm & _)];
      [assumption | congruence].
  - intros cached Hc. eapply later_instance_with_resampler; [|eassumption].
    eapply decode_example_later; eassumption.
Qed.

(** X2: the same for a whole batch, also when it stops at a failing item:
    [decode_batch] leaves the fields as they are, and an instance that has
    a resampler before the batch is the same instance after it. *)
Theorem decode_batch_keeps_instance values w r w' :
  decode_batch E values w = (r, w') ->
  (sampling_rate (self_ w') = sampling_rate (self_ w)
   /\ mono (self_ w') = mono (self_ w)
   /\ archived (self_ w') = archived (self_ w)
   /\ id (self_ w') = id (self_ w))
  /\ (forall cached, _resampler (self_ w) = Some cached -> self_ w' = self_ w).
Proof.
  intros H. apply decode_batch_from_later in H. split.
  - destruct H as [Hf _]. unfold fields in Hf. inversion Hf. auto.
  - intros cached Hc. eapply later_instance_with_resampler; eassumption.
Qed.

(** X3: the comparison generated by [@dataclass] does not see the
    resampler: after a batch the instance is still equal to what it was
    before, and to the instance without a resampler. *)
Theorem decode_batch_keeps_equality values w r w' :
  decode_batch E values w = (r, w') ->
  __eq__ (self_ w') (self_ w) = true
  /\ __eq__ (self_ w') (without_resampler (self_ w)) = true.
Proof.
  intros H. apply decode_batch_from_later in H as [Hf _].
  unfold __eq__. split; apply bool_decide_eq_true; exact Hf.
Qed.

(** X4: the resampler an instance acquires in a call is the one for the
    rate of the file decoded in that call and for [sampling_rate]; the path
    of that reference ends with [.mp3], and the two rates differ. *)
Theorem first_resampler_rates v w r w' created :
  decode_example E v w = (r, w') ->
  _resampler (self_ w) = None ->
  _resampler (self_ w') = Some created ->
  endswith (path_of v) ".mp3" = true
  /\ native_rate E (self_ w) v = Some (orig_freq created)
  /\ sampling_rate (self_ w) = Some (new_freq created)
  /\ new_freq created <> 0
  /\ new_freq created <> orig_freq created.
Proof.
  intros H Hnone Hsome.
  apply decode_example_instance in H
    as [Hs|(Hmp3 & _ & native & target & Hnat & Hwant & Hs)];
    rewrite Hs in Hsome; [congruence|].
  simpl in Hsome. inversion Hsome; subst created. simpl.
  apply resample_wanted_spec in Hwant as (Hsr & Hnz & Hne). auto.
Qed.

End Instance.

(** ** The rate that is returned *)

Section ReturnedRate.

Context {ndarray tensor : Type}.
Variable E : Env ndarray tensor.
Implicit Types w : world ndarray tensor.

Lemma soundfile_returned_rate file w a sr w' native :
  _decode_example_with_soundfile E file w = (Ok (a, sr), w') ->
  soundfile_rate E file = Some native ->
  sr = default native (resample_wanted (self_ w) native).
Proof.
  unfold _decode_example_with_soundfile, soundfile_rate, rate_of.
  run_monad. simpl.
  intros H. split_hyp H; inversion H; subst; simpl;
    intros Hn; use_eqns_in Hn; inversion Hn; subst; use_eqns; reflexivity.
Qed.

Lemma torchaudio_returned_rate src w a sr w' native :
  _decode_example_with_torchaudio E src w = (Ok (a, sr), w') ->
  torchaudio_rate E src = Some native ->
  sr = default native (resample_wanted (self_ w) native).
Proof.
  unfold _decode_example_with_torchaudio, try_set_audio_backend,
    get_resampler, torchaudio_rate, rate_of.
  run_monad. simpl.
  intros H. split_hyp H; inversion H; subst; simpl;
    intros Hn; use_eqns_in Hn; inversion Hn; subst; use_eqns; reflexivity.
Qed.

(** X5: when the decoder reports the rate [native] and [decode_example]
    returns, the rate it returns is [sampling_rate] when that is set and not
    zero, and [native] when it is [None] or [0]. *)
Theorem returned_sampling_rate v w d w' native :
  decode_example E v w = (Ok d, w') ->
  native_rate E (self_ w) v = Some native ->
  (forall target,
      sampling_rate (self_ w) = Some target -> target <> 0 ->
      dict_get "sampling_rate" d = Some (PyInt target))
  /\ (sampling_rate (self_ w) = None \/ sampling_rate (self_ w) = Some 0 ->
      dict_get "sampling_rate" d = Some (PyInt native)).
Proof.
  intros H Hnat.
  assert (Hrate : dict_get "sampling_rate" d
                  = Some (PyInt (default native
                                   (resample_wanted (self_ w) native)))).
  { unfold native_rate in Hnat.
    destruct v as [path|path bytes], (archived (self_ w)) eqn:Ha;
      try discriminate.
    - rewrite decode_example_not_archived in H by assumption.
      apply packed_inv in H as (r0 & Hrun & Hr).
      destruct (endswith path ".mp3"); [|discriminate].
      destruct r0 as [[a sr]|]; inversion Hr; subst.
      now rewrite (torchaudio_returned_rate _ _ _ _ _ _ Hrun Hnat).
    - rewrite decode_example_archived in H by assumption.
      apply packed_inv in H as (r0 & Hrun & Hr).
      destruct r0 as [[a sr]|]; inversion Hr; subst.
      destruct (endswith path ".mp3").
      + now rewrite (torchaudio_returned_rate _ _ _ _ _ _ Hrun Hnat).
      + now rewrite (soundfile_returned_rate _ _ _ _ _ _ Hrun Hnat). }
  rewrite Hrate. unfold resample_wanted. split.
  - intros target Hsr Hnz. rewrite Hsr.
    destruct (Z.eqb_spec target 0); [contradiction|].
    destruct (Z.eqb_spec target native); simpl; congruence.
  - intros [Hsr|Hsr]; rewrite Hsr; reflexivity.
Qed.

Lemma soundfile_without_target file w :
  (forall n, resample_wanted (self_ w) n = None) ->
  fst (_decode_example_with_soundfile E file w)
  = fst (_decode_example_with_soundfile E file (keep_native_rate w)).
Proof.
  intros Hall. unfold _decode_example_with_soundfile. run_monad. simpl.
  destruct (import_librosa E) as [lib|e]; simpl.
  - destruct (import_soundfile E) as [sf|e]; simpl.
    + destruct (sf_read sf file) as [[raw native]|e]; simpl; [|reflexivity].
      rewrite Hall.
      destruct (mono (self_ w)); simpl; [|reflexivity].
      destruct (librosa_to_mono lib (ndarray_T E raw)); reflexivity.
    + destruct (isinstance e "ImportError"); reflexivity.
  - destruct (isinstance e "ImportError"); reflexivity.
Qed.

Lemma torchaudio_without_target src w :
  (forall n, resample_wanted (self_ w) n = None) ->
  fst (_decode_example_with_torchaudio E src w)
  = fst (_decode_example_with_torchaudio E src (keep_native_rate w)).
Proof.
  intros Hall. unfold _decode_example_with_torchaudio, try_set_audio_backend.
  run_monad. simpl.
  destruct (import_torchaudio E) as [ta|e]; simpl.
  - destruct (set_audio_backend ta "sox_io") as [[]|e]; simpl.
    + destruct (torchaudio_load ta src) as [[x0 native]|e]; simpl;
        [|reflexivity].
      rewrite Hall. simpl. destruct (mono (self_ w)); reflexivity.
    + destruct (isinstance e "RuntimeError"); reflexivity.
  - destruct (isinstance e "ImportError"); reflexivity.
Qed.

(** X6: [sampling_rate=0] is falsy.  For an archived reference, and for
    any reference whose path ends with [.mp3], an instance with
    [sampling_rate=0] returns or raises what the instance with
    [sampling_rate=None] does. *)
Theorem zero_sampling_rate_is_none v w :
  sampling_rate (self_ w) = Some 0 ->
  archived (self_ w) = true \/ endswith (path_of v) ".mp3" = true ->
  fst (decode_example E v w) = fst (decode_example E v (keep_native_rate w)).
Proof.
  intros Hsr Hroute.
  assert (Hall : forall n, resample_wanted (self_ w) n = None).
  { intros n. unfold resample_wanted. now rewrite Hsr. }
  destruct (archived (self_ w)) eqn:Ha, v as [path|path bytes]; simpl in Hroute.
  - unfold decode_example, bind, get_self, raise. simpl. now rewrite Ha.
  - rewrite decode_example_archived by assumption.
    rewrite (decode_example_archived _ (keep_native_rate w)) by exact Ha.
    rewrite !packed_fst.
    destruct (endswith path ".mp3").
    + now rewrite torchaudio_without_target.
    + now rewrite soundfile_without_target.
  - rewrite decode_example_not_archived by assumption.
    rewrite (decode_example_not_archived _ (keep_native_rate w)) by exact Ha.
    rewrite !packed_fst.
    destruct Hroute as [Hf|Hmp3]; [discriminate|]. rewrite Hmp3.
    now rewrite torchaudio_without_target.
  - unfold decode_example, bind, get_self, raise. simpl. now rewrite Ha.
Qed.

End ReturnedRate.

(** ** Decoding the same reference again *)

Section Repeat.

Context {ndarray tensor : Type}.
Variable E : Env ndarray tensor.
Implicit Types w : world ndarray tensor.

Lemma librosa_repeat path w r w1 :
  _decode_example_with_librosa E path w = (r, w1) ->
  fst (_decode_example_with_librosa E path w1) = r
  /\ self_ (snd (_decode_example_with_librosa E path w1)) = self_ w1.
Proof.
  unfold _decode_example_with_librosa. run_monad. simpl.
  intros H. split_hyp H; inversion H; subst; simpl; use_eqns; split; reflexivity.
Qed.

Lemma soundfile_repeat file w r w1 :
  _decode_example_with_soundfile E file w = (r, w1) ->
  fst (_decode_example_with_soundfile E file w1) = r
  /\ self_ (snd (_decode_example_with_soundfile E file w1)) = self_ w1.
Proof.
  unfold _decode_example_with_soundfile. run_monad. simpl.
  intros H. split_hyp H; inversion H; subst; simpl; use_eqns; split; reflexivity.
Qed.

Lemma torchaudio_repeat src w r w1 :
  _decode_example_with_torchaudio E src w = (r, w1) ->
  fst (_decode_example_with_torchaudio E src w1) = r
  /\ self_ (snd (_decode_example_with_torchaudio E src w1)) = self_ w1.
Proof.
  unfold _decode_example_with_torchaudio, try_set_audio_backend,
    get_resampler, resample_wanted.
  run_monad. simpl.
  intros H. split_hyp H; inversion H; subst; simpl; use_eqns; split; reflexivity.
Qed.

Lemma packed_snd {A B} (m : M ndarray tensor A) (f : A -> B) w :
  snd ((let* x := m in ret (f x)) w) = snd (m w).
Proof. run_monad. destruct (m w) as [[x|e] w1]; reflexivity. Qed.

(** X7: decoding a reference again on the same instance returns (or
    raises) what the first call did, and does not change the instance any
    further, although the first call may have created the resampler. *)
Theorem decode_example_repeatable v w r w1 :
  decode_example E v w = (r, w1) ->
  fst (decode_example E v w1) = r
  /\ self_ (snd (decode_example E v w1)) = self_ w1.
Proof.
  intros H.
  assert (Ha1 : archived (self_ w1) = archived (self_ w)).
  { destruct (decode_example_later _ _ _ _ _ H) as [Hf _].
    unfold fields in Hf. now inversion Hf. }
  destruct (archived (self_ w)) eqn:Ha, v as [path|path bytes].
  - unfold decode_example, bind, get_self, raise in *. rewrite Ha in H.
    rewrite Ha1. inversion H; subst. split; reflexivity.
  - rewrite decode_example_archived in H by assumption.
    rewrite decode_example_archived by assumption.
    rewrite packed_fst, packed_snd.
    apply packed_inv in H as (r0 & Hrun & ->).
    destruct (endswith path ".mp3").
    + apply torchaudio_repeat in Hrun as [-> Hs]. now split.
    + apply soundfile_repeat in Hrun as [-> Hs]. now split.
  - rewrite decode_example_not_archived in H by assumption.
    rewrite decode_example_not_archived by assumption.
    rewrite packed_fst, packed_snd.
    apply packed_inv in H as (r0 & Hrun & ->).
    destruct (endswith path ".mp3").
    + apply torchaudio_repeat in Hrun as [-> Hs]. now split.
    + apply librosa_repeat in Hrun as [-> Hs]. now split.
  - unfold decode_example, bind, get_self, raise in *. rewrite Ha in H.
    rewrite Ha1. inversion H; subst. split; reflexivity.
Qed.

End Repeat.

(** ** More on batches *)

Section BatchMore.

Context {ndarray tensor : Type}.
Variable E : Env ndarray tensor.
Implicit Types w : world ndarray tensor.
Implicit Types ds : list (list (string * pyobj ndarray)).

Lemma decode_batch_spec values w :
  decode_batch E values w
  = (let* ds := decode_all E values in ret (batch_of ds)) w.
Proof.
  unfold decode_batch. change ∅ with (batch_of (V:=pyobj ndarray) []).
  now rewrite decode_batch_from_spec.
Qed.

Lemma decode_batch_ok values w m w' :
  decode_batch E values w = (Ok m, w') ->
  exists ds, decode_all E values w = (Ok ds, w') /\ m = batch_of ds.
Proof.
  rewrite decode_batch_spec. intros H.
  apply packed_inv in H as (r0 & Hrun & Hr).
  destruct r0 as [ds|]; inversion Hr; subst. eauto.
Qed.

Lemma decode_all_app xs : forall ys w,
  decode_all E (xs ++ ys) w
  = (let* ds1 := decode_all E xs in
     let* ds2 := decode_all E ys in
     ret (ds1 ++ ds2)) w.
Proof.
  induction xs as [|x xs IH]; intros ys w.
  - cbn [app decode_all]. unfold bind at 1, ret at 1.
    unfold bind, ret. destruct (decode_all E ys w) as [[ds|e] w1]; reflexivity.
  - cbn [app decode_all]. unfold bind, ret.
    destruct (decode_example E x w) as [[d|e] w1]; [|reflexivity].
    rewrite IH. unfold bind, ret.
    destruct (decode_all E xs w1) as [[ds1|e] w2]; [|reflexivity].
    destruct (decode_all E ys w2) as [[ds2|e] w3]; reflexivity.
Qed.

Lemma decode_example_path v w d w' :
  decode_example E v w = (Ok d, w') ->
  exists r, d = decoded (path_of v) r.
Proof.
  intros H. destruct (archived (self_ w)) eqn:Ha, v as [path|path bytes].
  - unfold decode_example, bind, get_self, raise in H.
    rewrite Ha in H. discriminate.
  - rewrite decode_example_archived in H by assumption.
    apply packed_inv in H as (r0 & _ & Hr).
    destruct r0 as [r|]; inversion Hr; subst. eauto.
  - rewrite decode_example_not_archived in H by assumption.
    apply packed_inv in H as (r0 & _ & Hr).
    destruct r0 as [r|]; inversion Hr; subst. eauto.
  - unfold decode_example, bind, get_self, raise in H.
    rewrite Ha in H. discriminate.
Qed.

Lemma decode_all_paths values : forall w ds w',
  decode_all E values w = (Ok ds, w') ->
  column "path" ds = map (fun v => PyStr (path_of v)) values.
Proof.
  induction values as [|v values IH]; intros w ds w'.
  - cbn. unfold ret. intros H; inversion H. reflexivity.
  - cbn [decode_all]. unfold bind, ret.
    destruct (decode_example E v w) as [[d|e] w1] eqn:Hd; [|discriminate].
    destruct (decode_all E values w1) as [[ds1|e] w2] eqn:Hds; [|discriminate].
    intros H; inversion H; subst.
    destruct (decode_example_path _ _ _ _ Hd) as (r & ->).
    cbn. f_equal. eapply IH; eassumption.
Qed.

(** X8: the [path] column of a batch is the list of the paths of the
    references, as they were given and in the order they were given,
    whatever the libraries decoded. *)
Theorem decode_batch_path_column values w m w' :
  values <> [] ->
  decode_batch E values w = (Ok m, w') ->
  m !! "path" = Some (map (fun v => PyStr (path_of v)) values).
Proof.
  intros Hne H. apply decode_batch_ok in H as (ds & Hds & ->).
  rewrite <- (decode_all_paths _ _ _ _ Hds).
  destruct (decode_all_shape _ _ _ _ _ Hds) as [Hlen _].
  destruct ds as [|d ds].
  - destruct values; [congruence|discriminate].
  - cbn [batch_of]. unfold columns.
    rewrite !lookup_insert_ne by done. apply lookup_insert_eq.
Qed.

(** X9: [decode_batch] stops at the first reference that fails: it raises
    that error, and the state is the one that call left; nothing is done
    for the references after it. *)
Theorem decode_batch_fail_fast before v after w ds w1 e w2 :
  decode_all E before w = (Ok ds, w1) ->
  decode_example E v w1 = (Raise e, w2) ->
  decode_batch E (before ++ v :: after) w = (Raise e, w2).
Proof.
  intros Hbefore Hv.
  rewrite decode_batch_spec. unfold bind, ret.
  rewrite decode_all_app. unfold bind, ret. rewrite Hbefore.
  cbn [decode_all]. unfold bind, ret. now rewrite Hv.
Qed.

Lemma column_app k ds1 ds2 :
  column k (ds1 ++ ds2) = column k ds1 ++ column k ds2.
Proof. unfold column. apply omap_app. Qed.

Lemma batch_of_app ds1 ds2 :
  batch_of (ds1 ++ ds2)
  = union_with (fun a b => Some (a ++ b)) (batch_of ds1) (batch_of ds2).
Proof.
  apply map_eq; intros k. rewrite lookup_union_with.
  destruct ds1 as [|d1 ds1].
  - cbn [app batch_of]. rewrite lookup_empty.
    now destruct (batch_of ds2 !! k).
  - destruct ds2 as [|d2 ds2].
    + rewrite app_nil_r. cbn [batch_of]. rewrite lookup_empty.
      now destruct (columns (d1 :: ds1) !! k).
    + change (batch_of ((d1 :: ds1) ++ d2 :: ds2))
        with (columns ((d1 :: ds1) ++ d2 :: ds2)).
      cbn [batch_of]. unfold columns. rewrite !column_app.
      destruct (decide (k = "sampling_rate")) as [->|];
        [|destruct (decide (k = "array")) as [->|];
          [|destruct (decide (k = "path")) as [->|]]];
        simplify_map_eq; reflexivity.
Qed.

(** X10: decoding [xs ++ ys] in one batch gives, column by column, the
    columns of the batch [xs] followed by those of the batch [ys] decoded
    next on the same instance. *)
Theorem decode_batch_app xs ys w m1 w1 m2 w2 :
  decode_batch E xs w = (Ok m1, w1) ->
  decode_batch E ys w1 = (Ok m2, w2) ->
  decode_batch E (xs ++ ys) w
  = (Ok (union_with (fun a b => Some (a ++ b)) m1 m2), w2).
Proof.
  intros Hxs Hys.
  apply decode_batch_ok in Hxs as (ds1 & Hxs & ->).
  apply decode_batch_ok in Hys as (ds2 & Hys & ->).
  rewrite decode_batch_spec. unfold bind, ret.
  rewrite decode_all_app. unfold bind, ret. rewrite Hxs, Hys.
  now rewrite batch_of_app.
Qed.

End BatchMore.

(** ** Errors of the libraries *)

Section LibraryErrors.

Context {ndarray tensor : Type}.
Variable E : Env ndarray tensor.
Implicit Types w : world ndarray tensor.

(** X11: an exception raised by the decoder of the selected method, or by
    [open], is raised by [decode_example] as it is, right after that call:
    no other decoder is tried and no post-processing step is run. *)
Theorem decoder_errors_are_raised_unchanged w path bytes e :
  (forall librosa sf,
      archived (self_ w) = true -> endswith path ".mp3" = false ->
      import_librosa E = Ok librosa -> import_soundfile E = Ok sf ->
      sf_read sf bytes = Raise e ->
      decode_example E (VDict path bytes) w
      = (Raise e, {| self_ := self_ w; trace := trace w ++ [EvSfRead bytes] |}))
  /\ (forall torchaudio,
      archived (self_ w) = true -> endswith path ".mp3" = true ->
      import_torchaudio E = Ok torchaudio ->
      set_audio_backend torchaudio "sox_io" = Ok tt ->
      torchaudio_load torchaudio (FromBuffer bytes) = Raise e ->
      decode_example E (VDict path bytes) w
      = (Raise e,
         {| self_ := self_ w;
            trace := trace w ++ [EvSetAudioBackend "sox_io";
                                 EvTorchaudioLoad (FromBuffer bytes)] |}))
  /\ (forall torchaudio,
      archived (self_ w) = false -> endswith path ".mp3" = true ->
      import_torchaudio E = Ok torchaudio ->
      set_audio_backend torchaudio "sox_io" = Ok tt ->
      torchaudio_load torchaudio (FromPath path) = Raise e ->
      decode_example E (VStr path) w
      = (Raise e,
         {| self_ := self_ w;
            trace := trace w ++ [EvSetAudioBackend "sox_io";
                                 EvTorchaudioLoad (FromPath path)] |}))
  /\ (forall librosa,
      archived (self_ w) = false -> endswith path ".mp3" = false ->
      import_librosa E = Ok librosa ->
      open_rb E path = Raise e ->
      decode_example E (VStr path) w
      = (Raise e, {| self_ := self_ w; trace := trace w ++ [EvOpen path] |}))
  /\ (forall librosa f,
      archived (self_ w) = false -> endswith path ".mp3" = false ->
      import_librosa E = Ok librosa ->
      open_rb E path = Ok f ->
      librosa_load librosa f (sampling_rate (self_ w)) (mono (self_ w))
        = Raise e ->
      decode_example E (VStr path) w
      = (Raise e,
         {| self_ := self_ w;
            trace := trace w ++ [EvOpen path;
                                 EvLibrosaLoad f (sampling_rate (self_ w))
                                               (mono (self_ w))] |})).
Proof.
  repeat split.
  - intros lib sf Ha Hmp3 Hl Hs Hread.
    rewrite decode_example_archived by assumption. rewrite Hmp3.
    unfold _decode_example_with_soundfile. run_monad. simpl.
    rewrite Hl, Hs. simpl. now rewrite Hread.
  - intros ta Ha Hmp3 Hi Hsox Hload.
    rewrite decode_example_archived by assumption. rewrite Hmp3.
    unfold _decode_example_with_torchaudio, try_set_audio_backend.
    run_monad. simpl. rewrite Hi. simpl. rewrite Hsox. simpl.
    rewrite Hload. simpl. now rewrite <- app_assoc.
  - intros ta Ha Hmp3 Hi Hsox Hload.
    rewrite decode_example_not_archived by assumption. rewrite Hmp3.
    unfold _decode_example_with_torchaudio, try_set_audio_backend.
    run_monad. simpl. rewrite Hi. simpl. rewrite Hsox. simpl.
    rewrite Hload. simpl. now rewrite <- app_assoc.
  - intros lib Ha Hmp3 Hl Hopen.
    rewrite decode_example_not_archived by assumption. rewrite Hmp3.
    unfold _decode_example_with_librosa. run_monad. simpl.
    rewrite Hl. simpl. now rewrite Hopen.
  - intros lib f Ha Hmp3 Hl Hopen Hload.
    rewrite decode_example_not_archived by assumption. rewrite Hmp3.
    unfold _decode_example_with_librosa. run_monad. simpl.
    rewrite Hl. simpl. rewrite Hopen. simpl. rewrite Hload. simpl.
    now rewrite <- app_assoc.
Qed.

(** X12: the import guards catch [ImportError] only, and the guard around
    [set_audio_backend] catches [RuntimeError] only: any other exception
    raised there comes out of [decode_example] unchanged. *)
Theorem other_exceptions_pass_the_guards w path bytes e :
  (import_torchaudio E = Raise e -> isinstance e "ImportError" = false ->
   endswith path ".mp3" = true ->
   (archived (self_ w) = true ->
      decode_example E (VDict path bytes) w = (Raise e, w))
   /\ (archived (self_ w) = false ->
      decode_example E (VStr path) w = (Raise e, w)))
  /\ (import_librosa E = Raise e -> isinstance e "ImportError" = false ->
     endswith path ".mp3" = false ->
     (archived (self_ w) = true ->
        decode_example E (VDict path bytes) w = (Raise e, w))
     /\ (archived (self_ w) = false ->
        decode_example E (VStr path) w = (Raise e, w)))
  /\ (forall torchaudio,
      import_torchaudio E = Ok torchaudio ->
      set_audio_backend torchaudio "sox_io" = Raise e ->
      isinstance e "RuntimeError" = false ->
      endswith path ".mp3" = true ->
      let w1 := {| self_ := self_ w;
                   trace := trace w ++ [EvSetAudioBackend "sox_io"] |} in
      (archived (self_ w) = true ->
         decode_example E (VDict path bytes) w = (Raise e, w1))
      /\ (archived (self_ w) = false ->
         decode_example E (VStr path) w = (Raise e, w1))).
Proof.
  split; [|split].
  - intros Hi He Hmp3. split; intros Ha;
      [rewrite decode_example_archived by assumption
      |rewrite decode_example_not_archived by assumption];
      rewrite Hmp3; unfold _decode_example_with_torchaudio; run_monad;
      now rewrite Hi, He.
  - intros Hi He Hmp3. split; intros Ha;
      [rewrite decode_example_archived by assumption
      |rewrite decode_example_not_archived by assumption];
      rewrite Hmp3;
      unfold _decode_example_with_soundfile, _decode_example_with_librosa;
      run_monad; now rewrite Hi, He.
  - intros ta Hi Hsox He Hmp3 w1. split; intros Ha;
      [rewrite decode_example_archived by assumption
      |rewrite decode_example_not_archived by assumption];
      rewrite Hmp3;
      unfold _decode_example_with_torchaudio, try_set_audio_backend;
      run_monad; rewrite Hi; simpl; now rewrite Hsox, He.
Qed.

End LibraryErrors.

(** ** Each method needs its own libraries only *)

Section Frame.

Context {ndarray tensor : Type}.
Variables E1 E2 : Env ndarray tensor.
Implicit Types w : world ndarray tensor.

(** X13: what [decode_example] does with a reference depends on the
    libraries of the selected method alone.  A path ending with [.mp3]
    needs torchaudio (and numpy's mean) and nothing else; any other
    archived reference needs librosa, soundfile and numpy's transpose;
    any other bare path needs librosa and [open]. *)
Theorem decode_example_needs_selected_libraries_only v w :
  (endswith (path_of v) ".mp3" = true ->
   import_torchaudio E1 = import_torchaudio E2 ->
   ndarray_mean_axis0 E1 = ndarray_mean_axis0 E2 ->
   decode_example E1 v w = decode_example E2 v w)
  /\ (endswith (path_of v) ".mp3" = false ->
     archived (self_ w) = true ->
     import_librosa E1 = import_librosa E2 ->
     import_soundfile E1 = import_soundfile E2 ->
     ndarray_T E1 = ndarray_T E2 ->
     decode_example E1 v w = decode_example E2 v w)
  /\ (endswith (path_of v) ".mp3" = false ->
     archived (self_ w) = false ->
     import_librosa E1 = import_librosa E2 ->
     open_rb E1 = open_rb E2 ->
     decode_example E1 v w = decode_example E2 v w).
Proof.
  split; [|split].
  - intros Hmp3 Hi Hmean.
    destruct (archived (self_ w)) eqn:Ha, v as [path|path bytes];
      simpl in Hmp3.
    + unfold decode_example, bind, get_self, raise. now rewrite Ha.
    + rewrite !decode_example_archived by assumption. rewrite Hmp3.
      unfold _decode_example_with_torchaudio. now rewrite Hi, Hmean.
    + rewrite !decode_example_not_archived by assumption. rewrite Hmp3.
      unfold _decode_example_with_torchaudio. now rewrite Hi, Hmean.
    + unfold decode_example, bind, get_self, raise. now rewrite Ha.
  - intros Hmp3 Ha Hl Hs HT. destruct v as [path|path bytes]; simpl in Hmp3.
    + unfold decode_example, bind, get_self, raise. now rewrite Ha.
    + rewrite !decode_example_archived by assumption. rewrite Hmp3.
      unfold _decode_example_with_soundfile. now rewrite Hl, Hs, HT.
  - intros Hmp3 Ha Hl Hopen. destruct v as [path|path bytes]; simpl in Hmp3.
    + rewrite !decode_example_not_archived by assumption. rewrite Hmp3.
      unfold _decode_example_with_librosa. now rewrite Hl, Hopen.
    + unfold decode_example, bind, get_self, raise. now rewrite Ha.
Qed.

End Frame.

(** ** Arguments of the resamplers *)

Section ResamplerArguments.

Context {ndarray tensor : Type}.
Variable E : Env ndarray tensor.
Implicit Types w : world ndarray tensor.

Lemma soundfile_resample_arguments file w r w' :
  _decode_example_with_soundfile E file w = (r, w') ->
  appends (fun ev => forall a orig target res_type,
             ev = EvLibrosaResample a orig target res_type ->
             soundfile_rate E file = Some orig
             /\ resample_wanted (self_ w) orig = Some target
             /\ res_type = "kaiser_best") w w'.
Proof.
  unfold _decode_example_with_soundfile, appends, soundfile_rate.
  run_monad. simpl.
  intros H. split_hyp H; inversion H; subst; simpl; rewrite <- ?app_assoc;
    simpl;
    (first [ exists []; split; [symmetry; apply app_nil_r | constructor]
           | eexists; split; [reflexivity|] ]);
    repeat (apply Forall_cons; split; [try (intros; discriminate)|]);
    try apply Forall_nil.
  all: try exact I; intros a' orig target res_type Heq; inversion Heq; subst;
    repeat split; try assumption; use_eqns; reflexivity.
Qed.

(** X14: [librosa.resample] is always called from the rate [sf.read]
    reported for the very file being decoded, towards [sampling_rate], with
    [res_type="kaiser_best"]. *)
Theorem librosa_resample_arguments v w r w' :
  decode_example E v w = (r, w') ->
  appends (fun ev => forall a orig target res_type,
             ev = EvLibrosaResample a orig target res_type ->
             native_rate E (self_ w) v = Some orig
             /\ sampling_rate (self_ w) = Some target
             /\ target <> 0 /\ target <> orig
             /\ res_type = "kaiser_best") w w'.
Proof.
  intros H. destruct (archived (self_ w)) eqn:Ha, v as [path|path bytes].
  - unfold decode_example, bind, get_self, raise in H. rewrite Ha in H.
    inversion H; subst. apply appends_refl.
  - rewrite decode_example_archived in H by assumption.
    apply packed_inv in H as (r0 & Hrun & _).
    unfold native_rate. rewrite Ha.
    destruct (endswith path ".mp3").
    + eapply appends_impl; [|eapply torchaudio_logs; eassumption].
      intros ev Hev a orig target res_type ->. discriminate.
    + eapply appends_impl; [|eapply soundfile_resample_arguments; eassumption].
      intros ev Hev a orig target res_type Heq.
      destruct (Hev _ _ _ _ Heq) as (Hn & Hw & Hres).
      apply resample_wanted_spec in Hw as (? & ? & ?). auto.
  - rewrite decode_example_not_archived in H by assumption.
    apply packed_inv in H as (r0 & Hrun & _).
    destruct (endswith path ".mp3").
    + eapply appends_impl; [|eapply torchaudio_logs; eassumption].
      intros ev Hev a orig target res_type ->. discriminate.
    + eapply appends_impl; [|eapply librosa_logs; eassumption].
      intros ev Hev a orig target res_type ->. discriminate.
  - unfold decode_example, bind, get_self, raise in H. rewrite Ha in H.
    inversion H; subst. apply appends_refl.
Qed.

Lemma decode_example_consistent v w r w' :
  decode_example E v w = (r, w') ->
  resampler_consistent (self_ w) -> resampler_consistent (self_ w').
Proof.
  intros H Hc. apply decode_example_instance in H
    as [->|(_ & _ & native & target & _ & Hwant & ->)]; [assumption|].
  intros cached Hcached. simpl in Hcached. inversion Hcached; subst. simpl.
  now apply resample_wanted_spec in Hwant.
Qed.

Lemma decode_batch_from_consistent values : forall acc w r w',
  decode_batch_from E values acc w = (r, w') ->
  resampler_consistent (self_ w) -> resampler_consistent (self_ w').
Proof.
  induction values as [|v values IH]; intros acc w r w' H Hc.
  - cbn in H. unfold ret in H. now inversion H; subst.
  - cbn [decode_batch_from] in H. unfold bind in H.
    destruct (decode_example E v w) as [[d|e] w1] eqn:Hd.
    + eapply IH; [eassumption|]. eapply decode_example_consistent; eassumption.
    + inversion H; subst. eapply decode_example_consistent; eassumption.
Qed.

(** X15: an instance whose resampler, if any, resamples towards
    [sampling_rate] from a different rate (a new instance has none) is
    still such an instance after any batch. *)
Theorem decode_batch_keeps_resampler_consistent values w r w' :
  decode_batch E values w = (r, w') ->
  resampler_consistent (self_ w) -> resampler_consistent (self_ w').
Proof. apply decode_batch_from_consistent. Qed.

(** X16: with [mono=False] and [sampling_rate=None], a reference decoded
    by soundfile or torchaudio comes back as the decoder produced it
    (transposed for [sf.read]), with the rate the decoder reported, after
    that single call. *)
Theorem plain_decode_returns_decoder_output w path bytes :
  mono (self_ w) = false ->
  sampling_rate (self_ w) = None ->
  (forall librosa sf raw native,
      archived (self_ w) = true -> endswith path ".mp3" = false ->
      import_librosa E = Ok librosa -> import_soundfile E = Ok sf ->
      sf_read sf bytes = Ok (raw, native) ->
      decode_example E (VDict path bytes) w
      = (Ok (decoded path (ndarray_T E raw, native)),
         {| self_ := self_ w; trace := trace w ++ [EvSfRead bytes] |}))
  /\ (forall torchaudio x native,
      archived (self_ w) = true -> endswith path ".mp3" = true ->
      import_torchaudio E = Ok torchaudio ->
      set_audio_backend torchaudio "sox_io" = Ok tt ->
      torchaudio_load torchaudio (FromBuffer bytes) = Ok (x, native) ->
      decode_example E (VDict path bytes) w
      = (Ok (decoded path (tensor_numpy torchaudio x, native)),
         {| self_ := self_ w;
            trace := trace w ++ [EvSetAudioBackend "sox_io";
                                 EvTorchaudioLoad (FromBuffer bytes)] |}))
  /\ (forall torchaudio x native,
      archived (self_ w) = false -> endswith path ".mp3" = true ->
      import_torchaudio E = Ok torchaudio ->
      set_audio_backend torchaudio "sox_io" = Ok tt ->
      torchaudio_load torchaudio (FromPath path) = Ok (x, native) ->
      decode_example E (VStr path) w
      = (Ok (decoded path (tensor_numpy torchaudio x, native)),
         {| self_ := self_ w;
            trace := trace w ++ [EvSetAudioBackend "sox_io";
                                 EvTorchaudioLoad (FromPath path)] |})).
Proof.
  intros Hmono Hsr. repeat split.
  - intros lib sf raw native Ha Hmp3 Hl Hs Hread.
    rewrite decode_example_archived by assumption. rewrite Hmp3.
    unfold _decode_example_with_soundfile, resample_wanted. run_monad. simpl.
    rewrite Hl, Hs. simpl. rewrite Hread. simpl. now rewrite Hmono, Hsr.
  - intros ta x native Ha Hmp3 Hi Hsox Hload.
    rewrite decode_example_archived by assumption. rewrite Hmp3.
    unfold _decode_example_with_torchaudio, try_set_audio_backend,
      resample_wanted.
    run_monad. simpl. rewrite Hi. simpl. rewrite Hsox. simpl.
    rewrite Hload. simpl. rewrite Hsr. simpl. rewrite Hmono. simpl.
    now rewrite <- app_assoc.
  - intros ta x native Ha Hmp3 Hi Hsox Hload.
    rewrite decode_example_not_archived by assumption. rewrite Hmp3.
    unfold _decode_example_with_torchaudio, try_set_audio_backend,
      resample_wanted.
    run_monad. simpl. rewrite Hi. simpl. rewrite Hsox. simpl.
    rewrite Hload. simpl. rewrite Hsr. simpl. rewrite Hmono. simpl.
    now rewrite <- app_assoc.
Qed.

End ResamplerArguments.

(** ** More runs on the concrete environment *)

Section MoreRuns.

Import Demo.

Lemma decode_example_keeps_instance_witness :
  let w := start (Audio_init (Some 2) true false) in
  let run := decode_example full (VStr "/data/a.mp3") w in
  _resampler (self_ (snd run)) = Some {| orig_freq := 4; new_freq := 2 |}
  /\ sampling_rate (self_ (snd run)) = sampling_rate (self_ w)
  /\ mono (self_ (snd run)) = mono (self_ w)
  /\ archived (self_ (snd run)) = archived (self_ w)
  /\ id (self_ (snd run)) = id (self_ w).
Proof.
  intros w run. split; [reflexivity|].
  exact (proj1 (decode_example_keeps_instance full (VStr "/data/a.mp3") w
                  (fst run) (snd run) (surjective_pairing run))).
Defined.

Lemma decode_batch_keeps_instance_witness :
  let w := start (set_resampler (Audio_init (Some 2) false false)
                    {| orig_freq := 4; new_freq := 2 |}) in
  let run := decode_batch full [VStr "/data/a.mp3"; VStr "/data/b.mp3"] w in
  self_ (snd run) = self_ w.
Proof.
  intros w run.
  exact (proj2 (decode_batch_keeps_instance full
                  [VStr "/data/a.mp3"; VStr "/data/b.mp3"] w
                  (fst run) (snd run) (surjective_pairing run))
           {| orig_freq := 4; new_freq := 2 |} eq_refl).
Defined.

Lemma decode_batch_keeps_equality_witness :
  let w := start (Audio_init (Some 2) false false) in
  let run := decode_batch full [VStr "/data/a.mp3"; VStr "/data/b.mp3"] w in
  self_ (snd run) <> self_ w
  /\ __eq__ (self_ (snd run)) (self_ w) = true
  /\ __eq__ (self_ (snd run)) (without_resampler (self_ w)) = true.
Proof.
  intros w run. split; [discriminate|].
  exact (decode_batch_keeps_equality full
           [VStr "/data/a.mp3"; VStr "/data/b.mp3"] w
           (fst run) (snd run) (surjective_pairing run)).
Defined.

Lemma first_resampler_rates_witness :
  let w := start (Audio_init (Some 2) false false) in
  let run := decode_example full (VStr "/data/b.mp3") w in
  _resampler (self_ w) = None
  /\ _resampler (self_ (snd run)) = Some {| orig_freq := 8; new_freq := 2 |}
  /\ native_rate full (self_ w) (VStr "/data/b.mp3") = Some 8
  /\ sampling_rate (self_ w) = Some 2.
Proof.
  intros w run. split; [reflexivity|]. split; [reflexivity|].
  destruct (first_resampler_rates full (VStr "/data/b.mp3") w
              (fst run) (snd run) {| orig_freq := 8; new_freq := 2 |}
              (surjective_pairing run) eq_refl eq_refl)
    as (_ & Hnative & Htarget & _).
  split; assumption.
Defined.

Lemma returned_sampling_rate_witness :
  let w := start (Audio_init (Some 2) true true) in
  let run := decode_example full (VDict "clip.wav" stereo4) w in
  let d := decoded "clip.wav" (A1 [50; 70], 2) in
  run = (Ok d, snd run)
  /\ native_rate full (self_ w) (VDict "clip.wav" stereo4) = Some 4
  /\ dict_get "sampling_rate" d = Some (PyInt 2).
Proof.
  intros w run d. split; [reflexivity|]. split; [reflexivity|].
  refine (proj1 (returned_sampling_rate full (VDict "clip.wav" stereo4) w
                   d (snd run) 4 eq_refl eq_refl) 2 eq_refl _).
  discriminate.
Defined.

Lemma zero_sampling_rate_is_none_witness :
  let w := start (Audio_init (Some 0) false true) in
  fst (decode_example full (VDict "clip.wav" stereo4) w)
  = fst (decode_example full (VDict "clip.wav" stereo4) (keep_native_rate w)).
Proof.
  intros w.
  exact (zero_sampling_rate_is_none full (VDict "clip.wav" stereo4) w
           eq_refl (or_introl eq_refl)).
Defined.

Lemma decode_example_repeatable_witness :
  let w := start (Audio_init (Some 2) true false) in
  let run := decode_example full (VStr "/data/a.mp3") w in
  fst (decode_example full (VStr "/data/a.mp3") (snd run)) = fst run
  /\ self_ (snd (decode_example full (VStr "/data/a.mp3") (snd run)))
     = self_ (snd run).
Proof.
  intros w run.
  exact (decode_example_repeatable full (VStr "/data/a.mp3") w
           (fst run) (snd run) (surjective_pairing run)).
Defined.

Lemma decode_batch_path_column_witness :
  let w := start (Audio_init None true false) in
  let values := [VStr "/data/a.mp3"; VStr "/data/a.wav"] in
  let run := decode_batch full values w in
  let m := columns [decoded "/data/a.mp3" (A1 [50; 60; 70; 80], 4);
                    decoded "/data/a.wav" (A1 [50; 60; 70; 80], 4)] in
  run = (Ok m, snd run)
  /\ m !! "path" = Some [PyStr "/data/a.mp3"; PyStr "/data/a.wav"].
Proof.
  intros w values run m. split; [reflexivity|].
  refine (decode_batch_path_column full values w m (snd run) _ eq_refl).
  discriminate.
Defined.

Lemma decode_batch_fail_fast_witness :
  let w := start (Audio_init None true false) in
  let before := decode_all full [VStr "/data/a.mp3"] w in
  let failing := decode_example full (VStr "/data/missing.wav") (snd before) in
  before = (Ok [decoded "/data/a.mp3" (A1 [50; 60; 70; 80], 4)], snd before)
  /\ failing = (Raise (Exc "FileNotFoundError" "/data/missing.wav"),
                snd failing)
  /\ decode_batch full
       ([VStr "/data/a.mp3"]
          ++ VStr "/data/missing.wav" :: [VStr "/data/b.mp3"]) w
     = (Raise (Exc "FileNotFoundError" "/data/missing.wav"), snd failing).
Proof.
  intros w before failing. split; [reflexivity|]. split; [reflexivity|].
  exact (decode_batch_fail_fast full [VStr "/data/a.mp3"]
           (VStr "/data/missing.wav") [VStr "/data/b.mp3"] w
           [decoded "/data/a.mp3" (A1 [50; 60; 70; 80], 4)] (snd before)
           (Exc "FileNotFoundError" "/data/missing.wav") (snd failing)
           eq_refl eq_refl).
Defined.

Lemma decode_batch_app_witness :
  let w := start (Audio_init None true false) in
  let first := decode_batch full [VStr "/data/a.mp3"] w in
  let second := decode_batch full [VStr "/data/b.mp3"] (snd first) in
  let m1 := columns [decoded "/data/a.mp3" (A1 [50; 60; 70; 80], 4)] in
  let m2 := columns [decoded "/data/b.mp3"
                       (A1 [50; 60; 70; 80; 90; 100; 110; 120], 8)] in
  first = (Ok m1, snd first)
  /\ second = (Ok m2, snd second)
  /\ decode_batch full ([VStr "/data/a.mp3"] ++ [VStr "/data/b.mp3"]) w
     = (Ok (union_with (fun a b => Some (a ++ b)) m1 m2), snd second).
Proof.
  intros w first second m1 m2. split; [reflexivity|]. split; [reflexivity|].
  exact (decode_batch_app full [VStr "/data/a.mp3"] [VStr "/data/b.mp3"] w
           m1 (snd first) m2 (snd second) eq_refl eq_refl).
Defined.

Lemma decoder_errors_are_raised_unchanged_witness :
  let w := start (Audio_init None true false) in
  decode_example full (VStr "/data/missing.wav") w
  = (Raise (Exc "FileNotFoundError" "/data/missing.wav"),
     {| self_ := self_ w;
        trace := trace w ++ [EvOpen "/data/missing.wav"] |}).
Proof.
  intros w.
  destruct (decoder_errors_are_raised_unchanged full w "/data/missing.wav" []
              (Exc "FileNotFoundError" "/data/missing.wav"))
    as (_ & _ & _ & Hopen & _).
  exact (Hopen librosa eq_refl eq_refl eq_refl eq_refl).
Defined.

Lemma other_exceptions_pass_the_guards_witness :
  let broken : Env nd (list (list Z)) :=
    {| import_librosa := Ok librosa;
       import_soundfile := Ok soundfile;
       import_torchaudio := Raise (Exc "OSError" "libsox.so: not found");
       open_rb := fs_open;
       ndarray_T := T;
       ndarray_mean_axis0 := mean_axis0 |} in
  let w := start (Audio_init None true false) in
  decode_example broken (VStr "/data/a.mp3") w
  = (Raise (Exc "OSError" "libsox.so: not found"), w).
Proof.
  intros broken w.
  destruct (other_exceptions_pass_the_guards broken w "/data/a.mp3" []
              (Exc "OSError" "libsox.so: not found"))
    as (Htorchaudio & _).
  exact (proj2 (Htorchaudio eq_refl eq_refl eq_refl) eq_refl).
Defined.

Lemma decode_example_needs_selected_libraries_only_witness :
  let w := start (Audio_init (Some 2) true false) in
  decode_example full (VStr "/data/a.mp3") w
  = decode_example (env false false true true) (VStr "/data/a.mp3") w.
Proof.
  intros w.
  exact (proj1 (decode_example_needs_selected_libraries_only
                  full (env false false true true) (VStr "/data/a.mp3") w)
           eq_refl eq_refl eq_refl).
Defined.

Lemma librosa_resample_arguments_witness :
  let w := start (Audio_init (Some 2) true true) in
  let run := decode_example full (VDict "clip.wav" stereo4) w in
  trace (snd run)
    = [EvSfRead stereo4;
       EvToMono (A2 [[0; 10; 20; 30]; [100; 110; 120; 130]]);
       EvLibrosaResample (A1 [50; 60; 70; 80]) 4 2 "kaiser_best"]
  /\ appends (fun ev => forall a orig target res_type,
                ev = EvLibrosaResample a orig target res_type ->
                native_rate full (self_ w) (VDict "clip.wav" stereo4)
                  = Some orig
                /\ sampling_rate (self_ w) = Some target
                /\ target <> 0 /\ target <> orig
                /\ res_type = "kaiser_best") w (snd run).
Proof.
  intros w run. split; [reflexivity|].
  exact (librosa_resample_arguments full (VDict "clip.wav" stereo4) w
           (fst run) (snd run) (surjective_pairing run)).
Defined.

Lemma decode_batch_keeps_resampler_consistent_witness :
  let w := start (Audio_init (Some 2) false false) in
  let run := decode_batch full [VStr "/data/a.mp3"; VStr "/data/b.mp3"] w in
  resampler_consistent (self_ w) /\ resampler_consistent (self_ (snd run)).
Proof.
  intros w run.
  assert (Hfresh : resampler_consistent (self_ w)).
  { intros cached Hcached. discriminate Hcached. }
  split; [exact Hfresh|].
  exact (decode_batch_keeps_resampler_consistent full
           [VStr "/data/a.mp3"; VStr "/data/b.mp3"] w
           (fst run) (snd run) (surjective_pairing run) Hfresh).
Defined.

Lemma plain_decode_returns_decoder_output_witness :
  let w := start (Audio_init None false true) in
  let raw := A2 [[0; 100]; [10; 110]; [20; 120]; [30; 130]] in
  decode_example full (VDict "clip.wav" stereo4) w
  = (Ok (decoded "clip.wav" (T raw, 4)),
     {| self_ := self_ w; trace := trace w ++ [EvSfRead stereo4] |}).
Proof.
  intros w raw.
  destruct (plain_decode_returns_decoder_output full w "clip.wav" stereo4
              eq_refl eq_refl) as (Hsf & _).
  exact (Hsf librosa soundfile raw 4 eq_refl eq_refl eq_refl eq_refl eq_refl).
Defined.

(** An exception of a class of a library that derives from [ImportError]
    is caught by the guard like [ImportError] itself. *)
Example subclass_of_ImportError_is_caught :
  let zip_error :=
    {| exc_class := "ZipImportError";
       exc_bases := ["ImportError"; "Exception"; "BaseException"];
       exc_msg := "bad local file header" |} in
  let broken : Env nd (list (list Z)) :=
    {| import_librosa := Ok librosa;
       import_soundfile := Ok soundfile;
       import_torchaudio := Raise zip_error;
       open_rb := fs_open;
       ndarray_T := T;
       ndarray_mean_axis0 := mean_axis0 |} in
  isinstance zip_error "ImportError" = true
  /\ decode_example broken (VStr "/data/a.mp3")
                    (start (Audio_init None true false))
     = (Raise (Exc "ImportError" msg_torchaudio),
        start (Audio_init None true false)).
Proof. split; reflexivity. Qed.

End MoreRuns.
